(** * underpants: a single-sign-on gateway (underpants.go)

    A shallow embedding of the session-token code ([user.encode],
    [validMessage], [decodeUser]), of identity resolution ([userFrom]) and of
    the HTTP handlers ([serveHttpProxy], [serveHttpAuth], the hub callback and
    the logout handler registered by [setup]), followed by the properties
    proved about them.

    Go strings and byte slices are [string]s (sequences of 8-bit [ascii]
    characters).  The Go packages the program imports (crypto/hmac,
    crypto/sha256, encoding/base64, encoding/json, net/url, strings, lilcache)
    are modelled by executable definitions, each in a module named after the
    package, after the documentation and the behaviour of the Go standard
    library.  What the process does not decide itself (the backend, the
    identity provider, the parsing done by net/http and net/url) is a
    parameter of the handlers, the record [World].  The page the mux serves
    at "/" is a template and is left out. *)

From Stdlib Require Import String Ascii List NArith ZArith Bool Arith Lia.
Import ListNotations.
Local Open Scope string_scope.

(** ** Results and errors *)

Inductive error : Type :=
| errorString (msg : string)      (* errors.New *)
| EOF                             (* io.EOF *)
| ErrUnexpectedEOF                (* io.ErrUnexpectedEOF *)
| CorruptInputError               (* base64.CorruptInputError *)
| SyntaxError                     (* json.SyntaxError *)
| UnmarshalTypeError              (* json.UnmarshalTypeError *)
| EscapeError                     (* url.EscapeError *)
| ErrNoCookie.                    (* http.ErrNoCookie *)

Inductive result (A : Type) : Type :=
| Ok (a : A)
| Err (e : error).
Arguments Ok {A} a.
Arguments Err {A} e.

(** ** Bytes *)

Definition byte_of (n : N) : ascii := ascii_of_N (n mod 256).
Definition code (c : ascii) : N := N_of_ascii c.

Definition byte_eqb (a b : ascii) : bool := Ascii.eqb a b.

Fixpoint bytes_of_string (s : string) : list N :=
  match s with
  | EmptyString => []
  | String c r => code c :: bytes_of_string r
  end.

Fixpoint string_of_bytes (l : list N) : string :=
  match l with
  | [] => EmptyString
  | b :: r => String (byte_of b) (string_of_bytes r)
  end.

(** s[i], with the zero byte out of range (the program never indexes out of
    range: every index is guarded by a length test). *)
Fixpoint byte_at (s : string) (i : nat) : ascii :=
  match s, i with
  | EmptyString, _ => zero
  | String c _, O => c
  | String _ r, S j => byte_at r j
  end.

Definition len (s : string) : nat := String.length s.

(** ** Package strings *)

Module strings.

(** strings.HasPrefix(s, prefix) *)
Fixpoint HasPrefix (s p : string) : bool :=
  match p, s with
  | EmptyString, _ => true
  | String _ _, EmptyString => false
  | String b p', String a s' => byte_eqb a b && HasPrefix s' p'
  end.

(** strings.HasSuffix(s, suffix):
    len(s) >= len(suffix) && s[len(s)-len(suffix):] == suffix *)
Fixpoint drop (n : nat) (s : string) : string :=
  match n, s with
  | O, _ => s
  | S _, EmptyString => EmptyString
  | S m, String _ r => drop m r
  end.

Definition HasSuffix (s suffix : string) : bool :=
  (len suffix <=? len s)%nat && String.eqb (drop (len s - len suffix) s) suffix.

(** The part of [s] before the first occurrence of the byte [sep] and the
    part after it, when [sep] occurs. *)
Fixpoint cut (sep : ascii) (s : string) : option (string * string) :=
  match s with
  | EmptyString => None
  | String c r =>
      if byte_eqb c sep then Some (EmptyString, r)
      else match cut sep r with
           | Some (a, b) => Some (String c a, b)
           | None => None
           end
  end.

(** strings.SplitN(s, sep, 2) for a one-byte separator: at most two
    substrings, the second one the unsplit remainder. *)
Definition SplitN2 (s : string) (sep : ascii) : list string :=
  match cut sep s with
  | Some (a, b) => [a; b]
  | None => [s]
  end.

Fixpoint contains (sep : ascii) (s : string) : bool :=
  match s with
  | EmptyString => false
  | String c r => byte_eqb c sep || contains sep r
  end.

End strings.

(** ** Package crypto/sha256 (FIPS 180-4) *)

Module sha256.
Local Open Scope N_scope.

Definition M32 : N := 0x100000000.
Definition add32 (x y : N) : N := (x + y) mod M32.
Definition rotr (n x : N) : N :=
  N.lor (N.shiftr x n) (N.shiftl x (32 - n) mod M32).
Definition not32 (x : N) : N := N.lxor x 0xffffffff.

Definition Ch (x y z : N) := N.lxor (N.land x y) (N.land (not32 x) z).
Definition Maj (x y z : N) :=
  N.lxor (N.lxor (N.land x y) (N.land x z)) (N.land y z).
Definition BSig0 x := N.lxor (N.lxor (rotr 2 x) (rotr 13 x)) (rotr 22 x).
Definition BSig1 x := N.lxor (N.lxor (rotr 6 x) (rotr 11 x)) (rotr 25 x).
Definition ssig0 x := N.lxor (N.lxor (rotr 7 x) (rotr 18 x)) (N.shiftr x 3).
Definition ssig1 x := N.lxor (N.lxor (rotr 17 x) (rotr 19 x)) (N.shiftr x 10).

(** The constants of FIPS 180-4, section 4.2.2 and 5.3.3, from their
    definition: the first 32 bits of the fractional parts of the cube roots
    (for [K]) and of the square roots (for [init]) of the first primes. *)
Definition is_prime (p : nat) : bool :=
  forallb (fun d => negb (p mod d =? 0)%nat) (seq 2 (p - 2)).

Definition primes : list N :=
  map N.of_nat (filter is_prime (seq 2 310)).

(** The integer cube root: the largest [r] below [2 ^ bits] whose cube
    does not exceed [n]. *)
Fixpoint cube_root (bits : nat) (n r : N) : N :=
  match bits with
  | O => r
  | S b =>
      let r' := r + N.shiftl 1 (N.of_nat b) in
      cube_root b n (if r' * r' * r' <=? n then r' else r)
  end.

Definition K : list N :=
  Eval vm_compute in
    map (fun p => cube_root 40 (N.shiftl p 96) 0 mod M32) primes.

(** Padding: the byte 0x80, zero bytes up to 56 modulo 64, and the length
    in bits as a 64-bit big-endian integer. *)
Fixpoint be_bytes (n : nat) (x : N) : list N :=
  match n with
  | O => []
  | S m => (N.shiftr x (8 * N.of_nat m)) mod 256 :: be_bytes m x
  end.

Definition pad (msg : list N) : list N :=
  let l := length msg in
  let z := ((64 - ((l + 9) mod 64)) mod 64)%nat in
  msg ++ [0x80] ++ repeat 0 z ++ be_bytes 8 (8 * N.of_nat l).

(** Big-endian 32-bit words of a byte sequence. *)
Fixpoint words (bs : list N) : list N :=
  match bs with
  | a :: b :: c :: d :: r =>
      (N.shiftl a 24 + N.shiftl b 16 + N.shiftl c 8 + d) :: words r
  | _ => []
  end.

(** The message schedule, most recent word first: [sched] holds
    W(t-1), W(t-2), ... and is extended by [n] more words. *)
Fixpoint schedule (n : nat) (sched : list N) : list N :=
  match n with
  | O => sched
  | S m =>
      let w := add32 (add32 (ssig1 (nth 1 sched 0)) (nth 6 sched 0))
                     (add32 (ssig0 (nth 14 sched 0)) (nth 15 sched 0)) in
      schedule m (w :: sched)
  end.

Definition state : Type := (N * N * N * N * N * N * N * N)%type.

Definition round (st : state) (kw : N * N) : state :=
  let '(a, b, c, d, e, f, g, h) := st in
  let '(k, w) := kw in
  let t1 := add32 (add32 (add32 h (BSig1 e)) (add32 (Ch e f g) k)) w in
  let t2 := add32 (BSig0 a) (Maj a b c) in
  (add32 t1 t2, a, b, c, add32 d t1, e, f, g).

Definition compress (hs : state) (block : list N) : state :=
  let w := rev (schedule 48 (rev (words block))) in
  let '(a, b, c, d, e, f, g, h) := fold_left round (combine K w) hs in
  let '(a0, b0, c0, d0, e0, f0, g0, h0) := hs in
  (add32 a0 a, add32 b0 b, add32 c0 c, add32 d0 d,
   add32 e0 e, add32 f0 f, add32 g0 g, add32 h0 h).

Fixpoint blocks (n : nat) (hs : state) (bs : list N) : state :=
  match n with
  | O => hs
  | S m => blocks m (compress hs (firstn 64 bs)) (skipn 64 bs)
  end.

Definition frac_sqrt (i : nat) : N :=
  N.sqrt (N.shiftl (nth i primes 0) 64) mod M32.

Definition init : state :=
  Eval vm_compute in
    (frac_sqrt 0, frac_sqrt 1, frac_sqrt 2, frac_sqrt 3,
     frac_sqrt 4, frac_sqrt 5, frac_sqrt 6, frac_sqrt 7).

Definition Sum256 (msg : list N) : list N :=
  let p := pad msg in
  let '(a, b, c, d, e, f, g, h) := blocks (length p / 64) init p in
  flat_map (be_bytes 4) [a; b; c; d; e; f; g; h].

End sha256.

(** ** Package crypto/hmac (RFC 2104), instantiated with SHA-256 *)

Module hmac.
Local Open Scope N_scope.

Definition blocksize : nat := 64.

Definition block_key (key : list N) : list N :=
  let k := if (blocksize <? length key)%nat then sha256.Sum256 key else key in
  k ++ repeat 0 (blocksize - length k).

(** h := hmac.New(sha256.New, key); h.Write(msg); h.Sum(nil) *)
Definition Sum (key msg : string) : string :=
  let k := block_key (bytes_of_string key) in
  let ipad := map (N.lxor 0x36) k in
  let opad := map (N.lxor 0x5c) k in
  string_of_bytes
    (sha256.Sum256 (opad ++ sha256.Sum256 (ipad ++ bytes_of_string msg))).

End hmac.

(** ** Package encoding/base64, the URL-safe alphabet with padding *)

Module base64.
Local Open Scope N_scope.

Definition encodeURL : string :=
  "ABCDEFGHIJKLMNOPQRSTUVWXYZabcdefghijklmnopqrstuvwxyz0123456789-_".

Definition enc (v : N) : ascii := byte_at encodeURL (N.to_nat (v mod 64)).

(** The value of a character of the alphabet. *)
Definition dec (c : ascii) : option N :=
  let n := code c in
  if (65 <=? n) && (n <=? 90) then Some (n - 65)
  else if (97 <=? n) && (n <=? 122) then Some (n - 71)
  else if (48 <=? n) && (n <=? 57) then Some (n + 4)
  else if n =? 45 then Some 62
  else if n =? 95 then Some 63
  else None.

Definition quantum (a b c : N) : string :=
  let v := N.shiftl a 16 + N.shiftl b 8 + c in
  String (enc (N.shiftr v 18)) (String (enc (N.shiftr v 12))
    (String (enc (N.shiftr v 6)) (String (enc v) EmptyString))).

(** The whole three-byte groups of the input, four characters each, and the
    one or two bytes that remain. *)
Fixpoint groups (bs : list N) : string * list N :=
  match bs with
  | a :: b :: c :: r => let '(s, t) := groups r in (quantum a b c ++ s, t)
  | t => (EmptyString, t)
  end.

(** The padded encoding of a final group of one or two bytes. *)
Definition tail (t : list N) : string :=
  match t with
  | [a] =>
      let v := N.shiftl a 16 in
      String (enc (N.shiftr v 18)) (String (enc (N.shiftr v 12)) "==")
  | [a; b] =>
      let v := N.shiftl a 16 + N.shiftl b 8 in
      String (enc (N.shiftr v 18)) (String (enc (N.shiftr v 12))
        (String (enc (N.shiftr v 6)) "="))
  | _ => EmptyString
  end.

(** base64.URLEncoding.EncodeToString *)
Definition EncodeToString (src : string) : string :=
  let '(s, t) := groups (bytes_of_string src) in s ++ tail t.

(** The stream encoder returned by base64.NewEncoder.  Write encodes the
    whole three-byte groups and keeps the one or two bytes that remain in
    the encoder's buffer; they reach the underlying writer only when the
    caller calls Close.  [Write] is what the underlying writer has received
    after the bytes [src] were written to a fresh encoder, [Close] what
    Close would add. *)
Definition Write (src : string) : string := fst (groups (bytes_of_string src)).
Definition Close (src : string) : string := tail (snd (groups (bytes_of_string src))).

(** The decoders skip carriage returns and line feeds. *)
Fixpoint strip_newlines (s : string) : string :=
  match s with
  | EmptyString => EmptyString
  | String c r =>
      if (code c =? 10) || (code c =? 13) then strip_newlines r
      else String c (strip_newlines r)
  end.

Definition is_pad (c : ascii) : bool := code c =? 61.

(** Decoding of a newline-free input, quantum by quantum: the bytes decoded
    before the input ended or was found corrupt, and how it ended ([None]:
    at the end of the input).  A quantum is four characters of the
    alphabet, or two or three of them followed by padding to four
    characters, after which the input must end. *)
Fixpoint decode_quanta (s : string) : string * option error :=
  match s with
  | EmptyString => (EmptyString, None)
  | String c1 (String c2 (String c3 (String c4 r))) =>
      match dec c1, dec c2 with
      | Some v1, Some v2 =>
          match dec c3, dec c4 with
          | Some v3, Some v4 =>
              let v := N.shiftl v1 18 + N.shiftl v2 12 + N.shiftl v3 6 + v4 in
              let '(out, e) := decode_quanta r in
              (String (byte_of (N.shiftr v 16)) (String (byte_of (N.shiftr v 8))
                 (String (byte_of v) out)), e)
          | Some v3, None =>
              if is_pad c4 then
                let v := N.shiftl v1 18 + N.shiftl v2 12 + N.shiftl v3 6 in
                (String (byte_of (N.shiftr v 16))
                   (String (byte_of (N.shiftr v 8)) EmptyString),
                 match r with EmptyString => None | _ => Some CorruptInputError end)
              else (EmptyString, Some CorruptInputError)
          | None, _ =>
              if is_pad c3 && is_pad c4 then
                let v := N.shiftl v1 18 + N.shiftl v2 12 in
                (String (byte_of (N.shiftr v 16)) EmptyString,
                 match r with EmptyString => None | _ => Some CorruptInputError end)
              else (EmptyString, Some CorruptInputError)
          end
      | _, _ => (EmptyString, Some CorruptInputError)
      end
  | _ => (EmptyString, Some CorruptInputError)
  end.

(** base64.URLEncoding.DecodeString *)
Definition DecodeString (s : string) : result string :=
  match decode_quanta (strip_newlines s) with
  | (out, None) => Ok out
  | (_, Some e) => Err e
  end.

(** The reader returned by base64.NewDecoder over the string [s], read to
    its end: the bytes it delivers and the error that ends the stream, [EOF]
    after a well-formed input.  The decoder decodes the complete
    four-character quanta it has buffered and delivers what it decoded
    before a corrupt quantum; one to three characters left over at the end
    of the input end the stream with [ErrUnexpectedEOF].  (The decoder's
    buffer size is not modelled: the input is decoded as one chunk.) *)
Definition NewDecoder (s : string) : string * error :=
  let t := strip_newlines s in
  let whole := (4 * (len t / 4))%nat in
  match decode_quanta (substring 0 whole t) with
  | (out, Some e) => (out, e)
  | (out, None) =>
      (out, if (whole <? len t)%nat then ErrUnexpectedEOF else EOF)
  end.

End base64.

(** ** Package unicode/utf8 *)

Module utf8.
Local Open Scope N_scope.

Definition RuneError : N := 0xFFFD.

Definition within (lo hi : N) (c : ascii) : bool :=
  (lo <=? code c) && (code c <=? hi).

Definition cont (c : ascii) : N := N.land (code c) 0x3F.

(** utf8.DecodeRuneInString: the first rune of [s] and its width in bytes;
    ([RuneError], 1) for an invalid encoding, ([RuneError], 0) for the
    empty string. *)
Definition DecodeRune (s : string) : N * nat :=
  match s with
  | EmptyString => (RuneError, 0%nat)
  | String x r =>
      let n := code x in
      if n <? 0x80 then (n, 1%nat)
      else if (0xC2 <=? n) && (n <=? 0xDF) then
        match r with
        | String b1 _ =>
            if within 0x80 0xBF b1
            then (N.shiftl (N.land n 0x1F) 6 + cont b1, 2%nat)
            else (RuneError, 1%nat)
        | _ => (RuneError, 1%nat)
        end
      else if (0xE0 <=? n) && (n <=? 0xEF) then
        match r with
        | String b1 (String b2 _) =>
            let lo := if n =? 0xE0 then 0xA0 else 0x80 in
            let hi := if n =? 0xED then 0x9F else 0xBF in
            if within lo hi b1 && within 0x80 0xBF b2
            then (N.shiftl (N.land n 0x0F) 12 + N.shiftl (cont b1) 6 + cont b2,
                  3%nat)
            else (RuneError, 1%nat)
        | _ => (RuneError, 1%nat)
        end
      else if (0xF0 <=? n) && (n <=? 0xF4) then
        match r with
        | String b1 (String b2 (String b3 _)) =>
            let lo := if n =? 0xF0 then 0x90 else 0x80 in
            let hi := if n =? 0xF4 then 0x8F else 0xBF in
            if within lo hi b1 && within 0x80 0xBF b2 && within 0x80 0xBF b3
            then (N.shiftl (N.land n 0x07) 18 + N.shiftl (cont b1) 12
                  + N.shiftl (cont b2) 6 + cont b3, 4%nat)
            else (RuneError, 1%nat)
        | _ => (RuneError, 1%nat)
        end
      else (RuneError, 1%nat)
  end.

(** utf8.EncodeRune: surrogates and values above U+10FFFF are written as
    U+FFFD. *)
Definition EncodeRune (r : N) : string :=
  let r := if ((0xD800 <=? r) && (r <=? 0xDFFF)) || (0x10FFFF <? r)
           then RuneError else r in
  let tx v := byte_of (0x80 + N.land v 0x3F) in
  if r <=? 0x7F then String (byte_of r) EmptyString
  else if r <=? 0x7FF then
    String (byte_of (0xC0 + N.shiftr r 6)) (String (tx r) EmptyString)
  else if r <=? 0xFFFF then
    String (byte_of (0xE0 + N.shiftr r 12))
      (String (tx (N.shiftr r 6)) (String (tx r) EmptyString))
  else
    String (byte_of (0xF0 + N.shiftr r 18))
      (String (tx (N.shiftr r 12))
         (String (tx (N.shiftr r 6)) (String (tx r) EmptyString))).

End utf8.

(** ** Hexadecimal digits *)

Definition hexdigit (digits : string) (n : N) : ascii :=
  byte_at digits (N.to_nat (n mod 16)%N).

Definition unhex (c : ascii) : option N :=
  let n := code c in
  (if (48 <=? n) && (n <=? 57) then Some (n - 48)
   else if (97 <=? n) && (n <=? 102) then Some (n - 87)
   else if (65 <=? n) && (n <=? 70) then Some (n - 55)
   else None)%N.

Definition ishex (c : ascii) : bool :=
  match unhex c with Some _ => true | None => false end.

(** ** Decimal numbers *)

(** The decimal digits of [n], most significant first, before [acc]; the
    fuel is the number of binary digits of [n], which bounds the number of
    its decimal digits. *)
Fixpoint digits_of (fuel : nat) (n : N) (acc : string) : string :=
  match fuel with
  | O => acc
  | S f =>
      let acc' := String (byte_of (48 + n mod 10)) acc in
      if (n / 10 =? 0)%N then acc' else digits_of f (n / 10) acc'
  end.

(** fmt.Sprintf("%d", z) *)
Definition itoa (z : Z) : string :=
  match z with
  | Z0 => "0"
  | Zpos p => digits_of (Pos.size_nat p) (Npos p) ""
  | Zneg p => "-" ++ digits_of (Pos.size_nat p) (Npos p) ""
  end.

(** ** Package net/url *)

Module url.
Local Open Scope N_scope.

(** shouldEscape(c, encodeQueryComponent): everything but the unreserved
    characters, letters, digits and [-_.~], is escaped. *)
Definition shouldEscape (c : ascii) : bool :=
  let n := code c in
  negb (((65 <=? n) && (n <=? 90)) || ((97 <=? n) && (n <=? 122))
        || ((48 <=? n) && (n <=? 57))
        || (n =? 45) || (n =? 95) || (n =? 46) || (n =? 126)).

(** url.QueryEscape *)
Fixpoint QueryEscape (s : string) : string :=
  match s with
  | EmptyString => EmptyString
  | String c r =>
      if code c =? 32 then String "+" (QueryEscape r)
      else if shouldEscape c then
        String "%" (String (hexdigit "0123456789ABCDEF" (code c / 16))
          (String (hexdigit "0123456789ABCDEF" (code c)) (QueryEscape r)))
      else String c (QueryEscape r)
  end.

(** url.QueryUnescape: %XX becomes the byte XX and + a space; a percent
    sign not followed by two hexadecimal digits is an error. *)
Fixpoint QueryUnescape (s : string) : result string :=
  match s with
  | EmptyString => Ok EmptyString
  | String c r =>
      if code c =? 37 then
        match r with
        | String h1 (String h2 r') =>
            match unhex h1, unhex h2 with
            | Some a, Some b =>
                match QueryUnescape r' with
                | Ok t => Ok (String (byte_of (16 * a + b)) t)
                | Err e => Err e
                end
            | _, _ => Err EscapeError
            end
        | _ => Err EscapeError
        end
      else
        match QueryUnescape r with
        | Ok t => Ok (String (if code c =? 43 then " "%char else c) t)
        | Err e => Err e
        end
  end.

(** The fields of url.URL the program reads or writes. *)
Record URL : Type := {
  Scheme : string;
  Host : string;
  Path : string;
  RawQuery : string
}.

Definition percent (c : ascii) (rest : string) : string :=
  String "%" (String (hexdigit "0123456789ABCDEF" (code c / 16))
    (String (hexdigit "0123456789ABCDEF" (code c)) rest)).

(** shouldEscape(c, encodePath): besides the unreserved characters, the
    reserved characters [$&+,/:;=@] stay as they are; the question mark
    and every other byte are escaped. *)
Definition shouldEscapePath (c : ascii) : bool :=
  let n := code c in
  shouldEscape c
  && negb ((n =? 36) || (n =? 38) || (n =? 43) || (n =? 44) || (n =? 47)
           || (n =? 58) || (n =? 59) || (n =? 61) || (n =? 64)).

(** shouldEscape(c, encodeHost): besides the unreserved characters, the
    characters [!$&'()*+,;=:[]<>] and the double quote stay as they are. *)
Definition shouldEscapeHost (c : ascii) : bool :=
  let n := code c in
  shouldEscape c
  && negb ((n =? 33) || (n =? 36) || (n =? 38) || (n =? 39) || (n =? 40)
           || (n =? 41) || (n =? 42) || (n =? 43) || (n =? 44) || (n =? 59)
           || (n =? 61) || (n =? 58) || (n =? 91) || (n =? 93) || (n =? 60)
           || (n =? 62) || (n =? 34)).

(** escape(s, mode) for the modes of a path and of a host: a byte to escape
    becomes %XX, the space included. *)
Fixpoint escape (should : ascii -> bool) (s : string) : string :=
  match s with
  | EmptyString => EmptyString
  | String c r =>
      if should c then percent c (escape should r)
      else String c (escape should r)
  end.

(** The method EscapedPath of URL, for a URL without RawPath. *)
Definition EscapedPath (u : URL) : string :=
  if String.eqb (Path u) "*" then "*" else escape shouldEscapePath (Path u).

Fixpoint first_segment_has_colon (path : string) : bool :=
  match path with
  | EmptyString => false
  | String c r =>
      if code c =? 47 then false
      else if code c =? 58 then true
      else first_segment_has_colon r
  end.

(** The method String of URL, for the URLs the record holds: those whose
    Opaque, User, RawPath, ForceQuery and Fragment are empty. *)
Definition String (u : URL) : string :=
  let nonempty (x : string) := negb (String.eqb x "") in
  let scheme := if nonempty (Scheme u) then Scheme u ++ ":" else "" in
  let authority :=
    if nonempty (Scheme u) || nonempty (Host u) then
      (if nonempty (Host u) || nonempty (Path u) then "//" else "")
      ++ escape shouldEscapeHost (Host u)
    else "" in
  let path := EscapedPath u in
  let slash :=
    match path with
    | String c _ =>
        if negb (code c =? 47) && nonempty (Host u) then "/" else ""
    | EmptyString => ""
    end in
  let head := scheme ++ authority ++ slash in
  let dot :=
    if String.eqb head "" && first_segment_has_colon path then "./" else "" in
  head ++ dot ++ path
    ++ (if nonempty (RawQuery u) then "?" ++ RawQuery u else "").

End url.

(** ** The identity: type user *)

Record user : Type := {
  Email : string;
  Name : string;
  Picture : string
}.

(** ** Package encoding/json, as far as type user needs it *)

Module json.

Definition dquote : ascii := ascii_of_N 34.
Definition backslash : ascii := ascii_of_N 92.
Definition newline : ascii := ascii_of_N 10.

Definition byte_is (c : ascii) (n : N) : bool := (code c =? n)%N.

(** *** Encoding *)

(** The bytes below 0x80 that the encoder copies unescaped (htmlSafeSet):
    all from the space on but the double quote, the backslash and the
    characters <, > and &. *)
Definition htmlSafe (c : ascii) : bool :=
  ((0x20 <=? code c) && (code c <? 0x80))%N
  && negb (byte_is c 34 || byte_is c 92 || byte_is c 60 || byte_is c 62 || byte_is c 38).

Definition escape (c : ascii) : string :=
  if byte_is c 92 || byte_is c 34 then String backslash (String c EmptyString)
  else if byte_is c 8 then String backslash "b"
  else if byte_is c 12 then String backslash "f"
  else if byte_is c 10 then String backslash "n"
  else if byte_is c 13 then String backslash "r"
  else if byte_is c 9 then String backslash "t"
  else String backslash
         ("u00" ++ String (hexdigit "0123456789abcdef" (code c / 16))
                     (String (hexdigit "0123456789abcdef" (code c)) EmptyString)).

(** The body of a string literal: invalid UTF-8 is written as the escape
    of U+FFFD, and U+2028 and U+2029 are escaped. *)
Fixpoint quote_body (fuel : nat) (s : string) : string :=
  match fuel, s with
  | S f, String c r =>
      if (code c <? 0x80)%N then
        (if htmlSafe c then String c EmptyString else escape c)
        ++ quote_body f r
      else
        let '(rune, size) := utf8.DecodeRune s in
        if (rune =? utf8.RuneError)%N && (size =? 1)%nat then
          String backslash "ufffd" ++ quote_body f r
        else if (rune =? 0x2028)%N then
          String backslash "u2028" ++ quote_body f (strings.drop size s)
        else if (rune =? 0x2029)%N then
          String backslash "u2029" ++ quote_body f (strings.drop size s)
        else substring 0 size s ++ quote_body f (strings.drop size s)
  | _, _ => EmptyString
  end.

Definition quote (s : string) : string :=
  String dquote (quote_body (len s) s ++ String dquote EmptyString).

Definition Marshal (u : user) : string :=
  "{" ++ quote "Email" ++ ":" ++ quote (Email u)
      ++ "," ++ quote "Name" ++ ":" ++ quote (Name u)
      ++ "," ++ quote "Picture" ++ ":" ++ quote (Picture u) ++ "}".

(** json.NewEncoder(w).Encode(u): what the encoder writes to [w], in one
    Write: the JSON text and a newline. *)
Definition Encode (u : user) : string :=
  Marshal u ++ String newline EmptyString.

(** *** Scanning *)

#[warnings="-register-all"]
Inductive value : Type :=
| Null
| Bool (b : bool)
| Number                       (* the literal is not kept: no field of
                                  user is numeric *)
| Str (s : string)
| Array (l : list value)
| Object (l : list (string * value)).

(** The result of scanning a prefix of the input: a value and the input
    that follows it, [More] when the input ends inside the value, [Bad] on
    a syntax error. *)
Inductive scan (A : Type) : Type :=
| Done (a : A) (rest : string)
| More
| Bad.
Arguments Done {A} a rest.
Arguments More {A}.
Arguments Bad {A}.

Definition scan_map {A B : Type} (f : A -> B) (x : scan A) : scan B :=
  match x with
  | Done a rest => Done (f a) rest
  | More => More
  | Bad => Bad
  end.

Definition isSpace (c : ascii) : bool :=
  byte_is c 32 || byte_is c 9 || byte_is c 13 || byte_is c 10.

Fixpoint skip_ws (s : string) : string :=
  match s with
  | String c r => if isSpace c then skip_ws r else s
  | EmptyString => s
  end.

Fixpoint all_hex (s : string) : bool :=
  match s with
  | EmptyString => true
  | String c r => ishex c && all_hex r
  end.

Definition simple_escape (e : ascii) : bool :=
  byte_is e 98 || byte_is e 102 || byte_is e 110 || byte_is e 114 || byte_is e 116
  || byte_is e 92 || byte_is e 47 || byte_is e 34.

(** The text of a string literal after its opening quote, up to the
    closing quote, escapes still in place. *)
Fixpoint scan_string (s : string) : scan string :=
  match s with
  | EmptyString => More
  | String c r =>
      if byte_is c 34 then Done EmptyString r
      else if byte_is c 92 then
        match r with
        | EmptyString => More
        | String e r1 =>
            if simple_escape e then
              scan_map (fun t => String c (String e t)) (scan_string r1)
            else if byte_is e 117 then
              match r1 with
              | String h1 (String h2 (String h3 (String h4 r2))) =>
                  if ishex h1 && ishex h2 && ishex h3 && ishex h4 then
                    scan_map
                      (fun t => String c (String e (String h1 (String h2
                                  (String h3 (String h4 t))))))
                      (scan_string r2)
                  else Bad
              | short => if all_hex short then More else Bad
              end
            else Bad
        end
      else if (code c <? 0x20)%N then Bad
      else scan_map (String c) (scan_string r)
  end.

(** The states of the scanner inside a number. *)
Inductive nstate : Type :=
| stateNeg | state0 | state1 | stateDot | stateDot0
| stateE | stateESign | stateE0.

Definition isDigit (c : ascii) : bool := ((48 <=? code c) && (code c <=? 57))%N.

(** The rest of a number: it ends before the first byte that cannot
    continue it. *)
Fixpoint scan_number (st : nstate) (s : string) : scan unit :=
  match s with
  | EmptyString =>
      match st with
      | state0 | state1 | stateDot0 | stateE0 => Done tt EmptyString
      | _ => More
      end
  | String c r =>
      match st with
      | stateNeg =>
          if byte_is c 48 then scan_number state0 r
          else if isDigit c then scan_number state1 r
          else Bad
      | state1 =>
          if isDigit c then scan_number state1 r
          else if byte_is c 46 then scan_number stateDot r
          else if byte_is c 101 || byte_is c 69 then scan_number stateE r
          else Done tt s
      | state0 =>
          if byte_is c 46 then scan_number stateDot r
          else if byte_is c 101 || byte_is c 69 then scan_number stateE r
          else Done tt s
      | stateDot =>
          if isDigit c then scan_number stateDot0 r else Bad
      | stateDot0 =>
          if isDigit c then scan_number stateDot0 r
          else if byte_is c 101 || byte_is c 69 then scan_number stateE r
          else Done tt s
      | stateE =>
          if byte_is c 43 || byte_is c 45 then scan_number stateESign r
          else if isDigit c then scan_number stateE0 r
          else Bad
      | stateESign =>
          if isDigit c then scan_number stateE0 r else Bad
      | stateE0 =>
          if isDigit c then scan_number stateE0 r else Done tt s
      end
  end.

(** The rest of the literals true, false and null. *)
Fixpoint scan_literal (expect s : string) : scan unit :=
  match expect, s with
  | EmptyString, _ => Done tt s
  | String _ _, EmptyString => More
  | String e expect', String c r =>
      if byte_eqb c e then scan_literal expect' r else Bad
  end.

(** *** Unquoting *)

Fixpoint getu4 (n : nat) (acc : N) (s : string) : option N :=
  match n, s with
  | O, _ => Some acc
  | S m, String c r =>
      match unhex c with
      | Some d => getu4 m (16 * acc + d)%N r
      | None => None
      end
  | S _, EmptyString => None
  end.

(** The rune of an escape \uXXXX at the head of [s], if there is one. *)
Definition getu (s : string) : option N :=
  match s with
  | String b (String u r) =>
      if byte_is b 92 && byte_is u 117 then getu4 4 0%N r else None
  | _ => None
  end.

Definition unescape (e : ascii) : ascii :=
  if byte_is e 98 then ascii_of_N 8
  else if byte_is e 102 then ascii_of_N 12
  else if byte_is e 110 then ascii_of_N 10
  else if byte_is e 114 then ascii_of_N 13
  else if byte_is e 116 then ascii_of_N 9
  else e.

Definition isSurrogate (r : N) : bool := ((0xD800 <=? r) && (r <? 0xE000))%N.

(** utf16.DecodeRune *)
Definition decodeSurrogates (r1 r2 : N) : N :=
  if ((0xD800 <=? r1) && (r1 <? 0xDC00) && (0xDC00 <=? r2) && (r2 <? 0xE000))%N
  then (N.shiftl (r1 - 0xD800) 10 + (r2 - 0xDC00) + 0x10000)%N
  else utf8.RuneError.

(** The string a literal denotes, from the text between its quotes: the
    escapes are replaced and the result is coerced to valid UTF-8. *)
Fixpoint unquote_body (fuel : nat) (s : string) : string :=
  match fuel, s with
  | S f, String c r =>
      if byte_is c 92 then
        match r with
        | String e r1 =>
            if byte_is e 117 then
              match getu s with
              | Some rr =>
                  let r2 := strings.drop 4 r1 in
                  if isSurrogate rr then
                    match getu r2 with
                    | Some rr1 =>
                        if (decodeSurrogates rr rr1 =? utf8.RuneError)%N
                        then utf8.EncodeRune utf8.RuneError ++ unquote_body f r2
                        else utf8.EncodeRune (decodeSurrogates rr rr1)
                               ++ unquote_body f (strings.drop 6 r2)
                    | None =>
                        utf8.EncodeRune utf8.RuneError ++ unquote_body f r2
                    end
                  else utf8.EncodeRune rr ++ unquote_body f r2
              | None => EmptyString
              end
            else String (unescape e) (unquote_body f r1)
        | EmptyString => EmptyString
        end
      else if (code c <? 0x80)%N then String c (unquote_body f r)
      else
        let '(rune, size) := utf8.DecodeRune s in
        utf8.EncodeRune rune ++ unquote_body f (strings.drop size s)
  | _, _ => EmptyString
  end.

Definition unquote (raw : string) : string := unquote_body (len raw) raw.

(** *** Parsing *)

(** The value at the head of [s], which does not start with white space.
    Every recursive call is made after at least one byte of the input has
    been consumed, so fuel above the length of the input is never
    exhausted. *)
Fixpoint parse_value (fuel : nat) (s : string) {struct fuel} : scan value :=
  match fuel, s with
  | O, _ => Bad
  | _, EmptyString => More
  | S f, String c r =>
      if byte_is c 123 then
        match skip_ws r with
        | EmptyString => More
        | String c1 r1 =>
            if byte_is c1 125 then Done (Object []) r1
            else parse_members f [] (String c1 r1)
        end
      else if byte_is c 91 then
        match skip_ws r with
        | EmptyString => More
        | String c1 r1 =>
            if byte_is c1 93 then Done (Array []) r1
            else parse_elements f [] (String c1 r1)
        end
      else if byte_is c 34 then
        scan_map (fun raw => Str (unquote raw)) (scan_string r)
      else if byte_is c 45 then
        scan_map (fun _ => Number) (scan_number stateNeg r)
      else if byte_is c 48 then
        scan_map (fun _ => Number) (scan_number state0 r)
      else if isDigit c then
        scan_map (fun _ => Number) (scan_number state1 r)
      else if byte_is c 116 then
        scan_map (fun _ => Bool true) (scan_literal "rue" r)
      else if byte_is c 102 then
        scan_map (fun _ => Bool false) (scan_literal "alse" r)
      else if byte_is c 110 then
        scan_map (fun _ => Null) (scan_literal "ull" r)
      else Bad
  end

(** The members of an object from a key on, after the members [acc]. *)
with parse_members (fuel : nat) (acc : list (string * value)) (s : string)
       {struct fuel} : scan value :=
  match fuel, s with
  | O, _ => Bad
  | _, EmptyString => More
  | S f, String c r =>
      if byte_is c 34 then
        match scan_string r with
        | Done raw r1 =>
            match skip_ws r1 with
            | EmptyString => More
            | String c2 r2 =>
                if byte_is c2 58 then
                  match parse_value f (skip_ws r2) with
                  | Done v r3 =>
                      let acc' := (acc ++ [(unquote raw, v)])%list in
                      match skip_ws r3 with
                      | EmptyString => More
                      | String c4 r4 =>
                          if byte_is c4 44 then parse_members f acc' (skip_ws r4)
                          else if byte_is c4 125 then Done (Object acc') r4
                          else Bad
                      end
                  | More => More
                  | Bad => Bad
                  end
                else Bad
            end
        | More => More
        | Bad => Bad
        end
      else Bad
  end

(** The elements of an array from a value on, after the elements [acc]. *)
with parse_elements (fuel : nat) (acc : list value) (s : string)
       {struct fuel} : scan value :=
  match fuel with
  | O => Bad
  | S f =>
      match parse_value f s with
      | Done v r1 =>
          let acc' := (acc ++ [v])%list in
          match skip_ws r1 with
          | EmptyString => More
          | String c2 r2 =>
              if byte_is c2 44 then parse_elements f acc' (skip_ws r2)
              else if byte_is c2 93 then Done (Array acc') r2
              else Bad
          end
      | More => More
      | Bad => Bad
      end
  end.

(** *** Decoding into a user *)

Definition lower (c : ascii) : ascii :=
  if ((65 <=? code c) && (code c <=? 90))%N then byte_of (code c + 32) else c.

Fixpoint fold (s : string) : string :=
  match s with
  | EmptyString => EmptyString
  | String c r => String (lower c) (fold r)
  end.

(** A key names the field whose name it equals up to the case of its
    letters. *)
Definition names (key field : string) : bool :=
  String.eqb (fold key) (fold field).

(** One member of the object: a string sets the field the key names, null
    leaves it as it is, any other value is a type error, which is saved
    while decoding goes on; a key that names no field is skipped. *)
Definition set_field (st : user * option error) (m : string * value)
  : user * option error :=
  let '(u, saved) := st in
  let '(key, v) := m in
  if names key "Email" || names key "Name" || names key "Picture" then
    match v with
    | Str x =>
        if names key "Email" then
          ({| Email := x; Name := Name u; Picture := Picture u |}, saved)
        else if names key "Name" then
          ({| Email := Email u; Name := x; Picture := Picture u |}, saved)
        else
          ({| Email := Email u; Name := Name u; Picture := x |}, saved)
    | Null => (u, saved)
    | _ =>
        (u, match saved with Some e => Some e | None => Some UnmarshalTypeError end)
    end
  else (u, saved).

Definition Unmarshal (v : value) (u : user) : result user :=
  match v with
  | Object members =>
      match fold_left set_field members (u, None) with
      | (u', None) => Ok u'
      | (_, Some e) => Err e
      end
  | Null => Ok u
  | _ => Err UnmarshalTypeError
  end.

Fixpoint nonSpace (s : string) : bool :=
  match s with
  | EmptyString => false
  | String c r => negb (isSpace c) || nonSpace r
  end.

Definition is_EOF (e : error) : bool :=
  match e with EOF => true | _ => false end.

(** json.NewDecoder(r).Decode(&u) on a zero [u], for a reader that delivers
    [data] and then ends with the error [e]: the first value of the stream
    is decoded, what follows it is left unread.  When the data end before
    the value does, the reader's error is returned, [ErrUnexpectedEOF] in
    place of [EOF] unless the data are all white space.  An object or array
    is complete at its closing bracket; a string, number or literal at the
    top is complete at the byte that follows it or at [EOF]. *)
Definition Decode (stream : string * error) : result user :=
  let '(data, e) := stream in
  let short := Err (if is_EOF e
                    then if nonSpace data then ErrUnexpectedEOF else EOF
                    else e) in
  let zero := {| Email := EmptyString; Name := EmptyString;
                 Picture := EmptyString |} in
  match parse_value (S (len data)) (skip_ws data) with
  | Bad => Err SyntaxError
  | More => short
  | Done v rest =>
      match v, rest with
      | Object _, _ | Array _, _ => Unmarshal v zero
      | _, EmptyString => if is_EOF e then Unmarshal v zero else short
      | _, _ => Unmarshal v zero
      end
  end.

End json.

(** ** Session tokens *)

(** The whole three-byte groups of a string: what is left of it when the
    one or two bytes after the last whole group are dropped. *)
Fixpoint whole_groups (s : string) : string :=
  match s with
  | String a (String b (String c r)) =>
      String a (String b (String c (whole_groups r)))
  | _ => EmptyString
  end.

Definition comma : ascii := ascii_of_N 44.

(** The method encode(key []byte) (string, error) of user.  The base64 encoder
    [w] wraps io.MultiWriter(h, &b); the JSON encoder writes the text of [u]
    and a newline to [w], and [w] is never closed, so [h] and [b] receive
    [base64.Write] of that text: the encoding of its whole three-byte
    groups.  Encoding a struct of three strings into a buffer does not
    fail. *)
Definition encode (u : user) (key : string) : result string :=
  let b := base64.Write (json.Encode u) in
  let h := hmac.Sum key b in
  Ok (base64.EncodeToString h ++ String comma b).

(** The loop of validMessage from index [i] on, with [n = len(s) - i]
    iterations left, together with the number of bytes of [s] that were
    compared when it returns. *)
Fixpoint compare_from (s v : string) (i n : nat) : bool * nat :=
  match n with
  | O => (true, i)
  | S m =>
      if negb (byte_eqb (byte_at s i) (byte_at v i)) then (false, S i)
      else compare_from s v (S i) m
  end.

(** validMessage, with the number of signature bytes it compared. *)
Definition validMessage_scan (key sig msg : string) : bool * nat :=
  match base64.DecodeString sig with
  | Err _ => (false, O)
  | Ok s =>
      let v := hmac.Sum key msg in
      if negb (len v =? len s)%nat then (false, O)
      else compare_from s v 0 (len s)
  end.

(** func validMessage(key []byte, sig, msg string) bool *)
Definition validMessage (key sig msg : string) : bool :=
  fst (validMessage_scan key sig msg).

Definition invalidCookie (c : string) : error :=
  errorString ("Invalid user cookie: " ++ c).

(** func decodeUser(c string, key []byte): the user, or an error. *)
Definition decodeUser (c key : string) : result user :=
  match strings.SplitN2 c comma with
  | [s0; s1] =>
      if negb (validMessage key s0 s1) then Err (invalidCookie c)
      else json.Decode (base64.NewDecoder s1)
  | _ => Err (invalidCookie c)
  end.

(** ** Package lilcache *)

(** Modelled from the spec: the source of the session cache (package
    github.com/kellegous/lilcache) is not part of the repository.  The spec
    gives its contract: [get(key) -> (Identity, found)] and
    [put(key, Identity)], a fixed capacity and a bounded-memory eviction
    policy, least recently used being acceptable.  The entries are kept most
    recently used first. *)
Module lilcache.

Record Cache : Type := {
  capacity : nat;
  entries : list (string * user)
}.

Definition New (n : nat) : Cache := {| capacity := n; entries := [] |}.

Fixpoint lookup (key : string) (l : list (string * user)) : option user :=
  match l with
  | [] => None
  | (k, v) :: r => if String.eqb k key then Some v else lookup key r
  end.

Fixpoint remove (key : string) (l : list (string * user))
  : list (string * user) :=
  match l with
  | [] => []
  | (k, v) :: r =>
      if String.eqb k key then remove key r else (k, v) :: remove key r
  end.

(** Modelled from the spec: cache.Get(key), the value and whether it was
    found (the callers test the time Get returns with it, which is zero when
    the key was not found); a hit makes the entry the most recently used. *)
Definition Get (key : string) (c : Cache) : option user * Cache :=
  match lookup key (entries c) with
  | Some v =>
      (Some v, {| capacity := capacity c;
                  entries := (key, v) :: remove key (entries c) |})
  | None => (None, c)
  end.

(** Modelled from the spec: cache.Put(key, value); the entry becomes the
    most recently used, and the least recently used entries beyond the
    capacity are evicted. *)
Definition Put (key : string) (v : user) (c : Cache) : Cache :=
  {| capacity := capacity c;
     entries := firstn (capacity c) ((key, v) :: remove key (entries c)) |}.

End lilcache.

(** ** Package net/http *)

Module http.

(** http.Header, a map from keys to the values added under them.  The keys
    of this program are in canonical form already. *)
Definition Header : Type := list (string * list string).

Fixpoint Add (h : Header) (key value : string) : Header :=
  match h with
  | [] => [(key, [value])]
  | (k, vs) :: r =>
      if String.eqb k key then (k, (vs ++ [value])%list) :: r
      else (k, vs) :: Add r key value
  end.

Fixpoint Set_ (h : Header) (key value : string) : Header :=
  match h with
  | [] => [(key, [value])]
  | (k, vs) :: r =>
      if String.eqb k key then (k, [value]) :: r
      else (k, vs) :: Set_ r key value
  end.

Fixpoint Values (h : Header) (key : string) : list string :=
  match h with
  | [] => []
  | (k, vs) :: r => if String.eqb k key then vs else Values r key
  end.

(** http.Cookie, the fields the program sets. *)
Record Cookie : Type := {
  Name : string;
  Value : string;
  Path : string;
  MaxAge : Z
}.

(** isToken: the characters of a cookie name. *)
Definition isToken (c : ascii) : bool :=
  let n := code c in
  (((65 <=? n) && (n <=? 90)) || ((97 <=? n) && (n <=? 122))
   || ((48 <=? n) && (n <=? 57))
   || strings.contains c "!#$%&'*+-.^_`|~")%N.

Fixpoint all_bytes (p : ascii -> bool) (s : string) : bool :=
  match s with
  | EmptyString => true
  | String c r => p c && all_bytes p r
  end.

(** isCookieNameValid *)
Definition isCookieNameValid (name : string) : bool :=
  negb (String.eqb name "") && all_bytes isToken name.

(** validCookieValueByte and validCookiePathByte *)
Definition validCookieValueByte (c : ascii) : bool :=
  let n := code c in
  ((0x20 <=? n) && (n <? 0x7f)
   && negb ((n =? 34) || (n =? 59) || (n =? 92)))%N.

Definition validCookiePathByte (c : ascii) : bool :=
  let n := code c in
  ((0x20 <=? n) && (n <? 0x7f) && negb (n =? 59))%N.

(** sanitizeOrWarn: the bytes that are not valid are dropped. *)
Fixpoint sanitize (valid : ascii -> bool) (s : string) : string :=
  match s with
  | EmptyString => EmptyString
  | String c r =>
      if valid c then String c (sanitize valid r) else sanitize valid r
  end.

(** sanitizeCookieValue: a value with a space or a comma is quoted. *)
Definition sanitizeCookieValue (v : string) : string :=
  let v := sanitize validCookieValueByte v in
  if String.eqb v "" then v
  else if strings.contains " " v || strings.contains "," v
  then String (ascii_of_N 34) (v ++ String (ascii_of_N 34) "")
  else v.

(** The method String of Cookie, the line http.SetCookie adds to the
    response under Set-Cookie, for the fields the program sets.  MaxAge = 0
    means that no Max-Age attribute is written; MaxAge < 0 means delete the
    cookie now, written Max-Age=0; MaxAge > 0 is written in seconds. *)
Definition CookieString (c : Cookie) : string :=
  if negb (isCookieNameValid (Name c)) then ""
  else
    Name c ++ "=" ++ sanitizeCookieValue (Value c)
      ++ (if String.eqb (Path c) "" then ""
          else "; Path=" ++ sanitize validCookiePathByte (Path c))
      ++ (if (0 <? MaxAge c)%Z then "; Max-Age=" ++ itoa (MaxAge c)
          else if (MaxAge c <? 0)%Z then "; Max-Age=0"
          else "").

Definition StatusOK : nat := 200.
Definition StatusFound : nat := 302.
Definition StatusBadRequest : nat := 400.
Definition StatusForbidden : nat := 403.
Definition StatusNotFound : nat := 404.
Definition StatusMethodNotAllowed : nat := 405.

Definition StatusText (code : nat) : string :=
  if (code =? 400)%nat then "Bad Request"
  else if (code =? 403)%nat then "Forbidden"
  else if (code =? 405)%nat then "Method Not Allowed"
  else if (code =? 302)%nat then "Found"
  else if (code =? 200)%nat then "OK"
  else if (code =? 404)%nat then "Not Found"
  else "".

(** What a handler does to its http.ResponseWriter: the header map it
    fills through w.Header(), and the calls it makes, in order.  The calls
    of the helpers of net/http (SetCookie, Error, Redirect) are recorded
    with their arguments. *)
Inductive call : Type :=
| WriteHeader (code : nat)               (* w.WriteHeader(code) *)
| Write (data : string)                  (* bytes written to w *)
| SetCookie (c : Cookie)                 (* http.SetCookie(w, c) *)
| Error (msg : string) (code : nat)      (* http.Error(w, msg, code) *)
| Redirect (urlStr : string) (code : nat). (* http.Redirect(w, r, urlStr, code) *)

Record ResponseWriter : Type := {
  header : Header;
  calls : list call
}.

Definition fresh : ResponseWriter := {| header := []; calls := [] |}.

Definition do (w : ResponseWriter) (c : call) : ResponseWriter :=
  {| header := header w; calls := (calls w ++ [c])%list |}.

Definition with_header (w : ResponseWriter) (h : Header) : ResponseWriter :=
  {| header := h; calls := calls w |}.

(** The status code of the response: that of the first call that writes
    the response header.  Error and Redirect write the code they are
    given; a Write without WriteHeader before it writes 200. *)
Fixpoint status_of (l : list call) : option nat :=
  match l with
  | [] => None
  | WriteHeader code :: _ => Some code
  | Write _ :: _ => Some StatusOK
  | Error _ code :: _ => Some code
  | Redirect _ code :: _ => Some code
  | SetCookie _ :: r => status_of r
  end.

Definition status (w : ResponseWriter) : option nat := status_of (calls w).

(** The cookies of the response. *)
Fixpoint cookies_of (l : list call) : list Cookie :=
  match l with
  | [] => []
  | SetCookie c :: r => c :: cookies_of r
  | _ :: r => cookies_of r
  end.

Definition cookies (w : ResponseWriter) : list Cookie := cookies_of (calls w).

(** The lines http.SetCookie adds to the response under Set-Cookie: one for
    each cookie whose String is not empty. *)
Definition set_cookie_lines (w : ResponseWriter) : list string :=
  filter (fun v => negb (String.eqb v "")) (map CookieString (cookies w)).

(** The redirects of the response: Redirect is the one helper that sets a
    Location header. *)
Fixpoint redirects_of (l : list call) : list string :=
  match l with
  | [] => []
  | Redirect u _ :: r => u :: redirects_of r
  | _ :: r => redirects_of r
  end.

(** Whether the response has a Location header. *)
Definition has_location (w : ResponseWriter) : bool :=
  match Values (header w) "Location", redirects_of (calls w) with
  | [], [] => false
  | _, _ => true
  end.

(** The bodies written by the handler itself. *)
Fixpoint written_of (l : list call) : string :=
  match l with
  | [] => EmptyString
  | Write d :: r => d ++ written_of r
  | _ :: r => written_of r
  end.

End http.

(** An inbound request: the fields of http.Request the program reads.
    [Cookies] are the name and value pairs net/http parses from the Cookie
    header, which r.Cookie consults, [Form] the parameters it parses from
    the query and the body, which r.FormValue consults. *)
Record Request : Type := {
  Method : string;
  URL : url.URL;
  Header : http.Header;
  Body : string;
  Cookies : list (string * string);
  Form : list (string * string)
}.

(** r.Cookie(name) *)
Fixpoint Cookie_from (l : list (string * string)) (name : string)
  : result string :=
  match l with
  | [] => Err ErrNoCookie
  | (n, v) :: r => if String.eqb n name then Ok v else Cookie_from r name
  end.

Definition Cookie (r : Request) (name : string) : result string :=
  Cookie_from (Cookies r) name.

(** r.FormValue(key): the first value for the key, or the empty string. *)
Fixpoint FormValue_from (l : list (string * string)) (key : string) : string :=
  match l with
  | [] => EmptyString
  | (k, v) :: r => if String.eqb k key then v else FormValue_from r key
  end.

Definition FormValue (r : Request) (key : string) : string :=
  FormValue_from (Form r) key.

(** The request sent to the backend (br in serveHttpProxy). *)
Module outbound.
Record Request : Type := {
  Method : string;
  URL : url.URL;
  Header : http.Header;
  Body : string
}.
End outbound.

(** The response of the backend (bp in serveHttpProxy); its body is what can
    be read of it and the error, if any, that ends the reading. *)
Module backend.
Record Response : Type := {
  StatusCode : nat;
  Header : http.Header;
  Body : string * option error
}.
End backend.

(** ** The world outside the process

    The collaborators the handlers call: the parser of net/url, the
    validation done by http.NewRequest, the HTTP client that reaches the
    backend, the identity provider behind package oauth, and the
    connection to the caller that the response writer writes to. *)
Record World : Type := {
  (** url.Parse *)
  url_Parse : string -> result url.URL;
  (** http.NewRequest(method, url, body): the error, if any *)
  http_NewRequest : string -> string -> option error;
  (** http.Client.Do *)
  client_Do : outbound.Request -> result backend.Response;
  (** oauth.Config.AuthCodeURL(state) *)
  oauth_AuthCodeURL : string -> string;
  (** oauth.Transport.Exchange(code): the error, if any *)
  oauth_Exchange : string -> option error;
  (** The GET of the userinfo endpoint with the exchanged token: the body of
      the response, as what can be read of it and the error that ends it. *)
  userinfo_Get : string -> result (string * error);
  (** Writing a body to the caller through w.Write, piece after piece: the
      bytes written before a write failed and the error of that write, if
      one failed. *)
  caller_Write : string -> string * option error
}.

(** ** The program *)

Definition userCookieKey : string := "u".
Definition authPathPrefix : string := "/__auth__/".

Record disp : Type := {
  from : string;
  to : string;
  host : string;
  key : string;
  domain : string
}.

(** How a handler ends: it returns, or it panics. *)
Inductive outcome : Type :=
| Returned
| Panicked (e : error).

(** What serving one request does: the response, the session cache
    afterwards, the request sent to the backend if one was, and how the
    handler ended. *)
Record Served : Type := {
  response : http.ResponseWriter;
  cache : lilcache.Cache;
  sent : option outbound.Request;
  ended : outcome
}.

(** func (d *disp) AuthCodeUrl(u *url.URL) string *)
Definition AuthCodeUrl (W : World) (d : disp) (u : url.URL) : string :=
  oauth_AuthCodeURL W (url.String u) ++ "&" ++ "hd=" ++ url.QueryEscape (domain d).

(** func copyHeaders(dst, src http.Header) *)
Definition copyHeaders (dst src : http.Header) : http.Header :=
  fold_left
    (fun dst '(key, vals) => fold_left (fun dst val => http.Add dst key val) vals dst)
    src dst.

(** func userFrom(r *http.Request, cache *lilcache.Cache, key []byte) *user *)
Definition userFrom (r : Request) (cache : lilcache.Cache) (key : string)
  : option user * lilcache.Cache :=
  match Cookie r userCookieKey with
  | Err _ => (None, cache)
  | Ok c =>
      if String.eqb c "" then (None, cache)
      else
        match url.QueryUnescape c with
        | Err _ => (None, cache)
        | Ok v =>
            (* check the cache *)
            match lilcache.Get v cache with
            | (Some u, cache1) => (Some u, cache1)
            | (None, cache1) =>
                match decodeUser v key with
                | Err _ => (None, cache1)
                | Ok u =>
                    (* this was a cache miss *)
                    (Some u, lilcache.Put c u cache1)
                end
            end
        end
  end.

(** func urlFor(host string, r *http.Request) *url.URL *)
Definition urlFor (host : string) (r : Request) : url.URL :=
  {| url.Scheme := "http";
     url.Host := host;
     url.Path := url.Path (URL r);
     url.RawQuery := url.RawQuery (URL r) |}.

(** The request serveHttpProxy builds for the backend: the method, body and
    headers of the inbound request, the URL with the backend's host, and the
    two headers that assert the identity. *)
Definition backendRequest (d : disp) (r : Request) (u : user)
  : outbound.Request :=
  let h := copyHeaders [] (Header r) in
  let h := http.Add h "X-Underpants-Email" (url.QueryEscape (Email u)) in
  let h := http.Add h "X-Underpants-Name" (url.QueryEscape (Email u)) in
  {| outbound.Method := Method r;
     outbound.URL := urlFor (to d) r;
     outbound.Header := h;
     outbound.Body := Body r |}.

(** io.Copy(w, src) for a source that delivers [data] and then ends with
    the error [rerr], if any: the bytes written to the caller and the first
    error met.  A write that fails stops the copy with its error; when every
    write succeeds all of [data] is written and the error is that of the
    source. *)
Definition io_Copy (W : World) (src : string * option error)
  : string * option error :=
  let '(data, rerr) := src in
  match caller_Write W data with
  | (written, Some werr) => (written, Some werr)
  | (_, None) => (data, rerr)
  end.

(** func serveHttpProxy(d *disp, w http.ResponseWriter, r *http.Request) *)
Definition serveHttpProxy (W : World) (d : disp) (c0 : lilcache.Cache)
  (w : http.ResponseWriter) (r : Request) : Served :=
  let '(u, c1) := userFrom r c0 (key d) in
  match u with
  | None =>
      {| response :=
           http.do w (http.Redirect (AuthCodeUrl W d (urlFor (from d) r))
                        http.StatusFound);
         cache := c1; sent := None; ended := Returned |}
  | Some u =>
      match http_NewRequest W (Method r) (url.String (urlFor (to d) r)) with
      | Some err =>
          {| response := w; cache := c1; sent := None; ended := Panicked err |}
      | None =>
          let br := backendRequest d r u in
          match client_Do W br with
          | Err err =>
              {| response := w; cache := c1; sent := Some br;
                 ended := Panicked err |}
          | Ok bp =>
              let w := http.with_header w
                         (copyHeaders (http.header w) (backend.Header bp)) in
              let w := http.do w (http.WriteHeader (backend.StatusCode bp)) in
              let copied := io_Copy W (backend.Body bp) in
              let w := http.do w (http.Write (fst copied)) in
              {| response := w; cache := c1; sent := Some br;
                 ended := match snd copied with
                          | Some err => Panicked err
                          | None => Returned
                          end |}
          end
      end
  end.

(** func serveHttpAuth(d *disp, w http.ResponseWriter, r *http.Request) *)
Definition serveHttpAuth (d : disp) (c0 : lilcache.Cache)
  (w : http.ResponseWriter) (r : Request) : Served :=
  let c := FormValue r "c" in
  let p := FormValue r "p" in
  if String.eqb c "" || negb (strings.HasPrefix p "/") then
    {| response :=
         http.do w (http.Error (http.StatusText http.StatusBadRequest)
                      http.StatusBadRequest);
       cache := c0; sent := None; ended := Returned |}
  else
    (* verify the cookie *)
    let '(hit, c1) := lilcache.Get c c0 in
    let forbidden :=
      match hit with
      | Some _ => false
      | None => match decodeUser c (key d) with Err _ => true | Ok _ => false end
      end in
    if forbidden then
      (* do not redirect out of here *)
      {| response :=
           http.do w (http.Error (http.StatusText http.StatusForbidden)
                        http.StatusForbidden);
         cache := c1; sent := None; ended := Returned |}
    else
      let w := http.do w (http.SetCookie
                 {| http.Name := userCookieKey;
                    http.Value := url.QueryEscape c;
                    http.Path := "/";
                    http.MaxAge := 3600 |}) in
      {| response := http.do w (http.Redirect p http.StatusFound);
         cache := c1; sent := None; ended := Returned |}.

(** func (d *disp) ServeHTTP(w http.ResponseWriter, r *http.Request) *)
Definition ServeHTTP (W : World) (d : disp) (c0 : lilcache.Cache)
  (w : http.ResponseWriter) (r : Request) : Served :=
  let p := url.Path (URL r) in
  if strings.HasPrefix p authPathPrefix then serveHttpAuth d c0 w r
  else serveHttpProxy W d c0 w r.

(** The handler setup registers for authPathPrefix: the callback of the
    identity provider.  [oauth_domain] is c.Oauth.Domain. *)
Definition callback (W : World) (oauth_domain key : string)
  (c0 : lilcache.Cache) (w : http.ResponseWriter) (r : Request) : Served :=
  let forbidden msg :=
    {| response := http.do w (http.Error msg http.StatusForbidden);
       cache := c0; sent := None; ended := Returned |} in
  let panic err :=
    {| response := w; cache := c0; sent := None; ended := Panicked err |} in
  let code := FormValue r "code" in
  let stat := FormValue r "state" in
  if String.eqb code "" || String.eqb stat "" then
    forbidden (http.StatusText http.StatusForbidden)
  else
    (* If stat isn't a valid URL, this is totally bogus. *)
    match url_Parse W stat with
    | Err _ => forbidden (http.StatusText http.StatusForbidden)
    | Ok back =>
        match oauth_Exchange W code with
        | Some _ => forbidden "Forbidden"
        | None =>
            match userinfo_Get W
                    "https://www.googleapis.com/oauth2/v1/userinfo?alt=json" with
            | Err err => panic err
            | Ok res =>
                match json.Decode res with
                | Err err => panic err
                | Ok u =>
                    (* this only happens when someone edits the auth url *)
                    if negb (strings.HasSuffix (Email u) oauth_domain) then
                      forbidden (http.StatusText http.StatusForbidden)
                    else
                      match encode u key with
                      | Err err => panic err
                      | Ok v =>
                          (* keep this in cache for quick verification *)
                          let c1 := lilcache.Put v u c0 in
                          let w := http.do w (http.SetCookie
                                     {| http.Name := userCookieKey;
                                        http.Value := url.QueryEscape v;
                                        http.Path := "/";
                                        http.MaxAge := 3600 |}) in
                          let p :=
                            if negb (String.eqb (url.RawQuery back) "")
                            then url.Path back ++ "?" ++ url.RawQuery back
                            else url.Path back in
                          let target :=
                            "http://" ++ url.Host back ++ authPathPrefix ++ "?"
                              ++ "c=" ++ url.QueryEscape v
                              ++ "&p=" ++ url.QueryEscape p in
                          {| response :=
                               http.do w (http.Redirect target http.StatusFound);
                             cache := c1; sent := None; ended := Returned |}
                      end
                end
            end
        end
    end.

(** The handler setup registers for authPathPrefix followed by logout. *)
Definition logout (w : http.ResponseWriter) (r : Request)
  : http.ResponseWriter :=
  if negb (String.eqb (Method r) "POST") then
    http.do w (http.Error (http.StatusText http.StatusMethodNotAllowed)
                 http.StatusMethodNotAllowed)
  else
    let w := http.do w (http.SetCookie
               {| http.Name := userCookieKey;
                  http.Value := "";
                  http.Path := "/";
                  http.MaxAge := 0 |}) in
    let w := http.with_header w (http.Set_ (http.header w) "Content-Type" "text/plain") in
    http.do w (http.Write ("ok." ++ String json.newline EmptyString)).

(** ** Plain identities

    A string is plain when the JSON encoder copies each of its bytes as it
    is: printable ASCII without the double quote, the backslash and the
    characters <, > and &. *)
Fixpoint plain (s : string) : bool :=
  match s with
  | EmptyString => true
  | String c r => json.htmlSafe c && plain r
  end.

Definition plain_user (u : user) : bool :=
  plain (Email u) && plain (Name u) && plain (Picture u).

(** The text of a member whose name and value are plain, followed by
    [rest], and the text of a plain user up to its closing brace, followed
    by [rest]. *)
Definition member (name value rest : string) : string :=
  String json.dquote (name ++ String json.dquote
    (":" ++ String json.dquote (value ++ String json.dquote rest))).

Definition user_text (u : user) (rest : string) : string :=
  "{" ++ member "Email" (Email u)
    ("," ++ member "Name" (Name u) ("," ++ member "Picture" (Picture u) rest)).

Definition members (u : user) : list (string * json.value) :=
  [("Email", json.Str (Email u)); ("Name", json.Str (Name u));
   ("Picture", json.Str (Picture u))].

(** ** The key of the process *)

(** io.CopyN(&b, src, n) into an empty buffer, for a reader that delivers
    [data] and then ends with the error [e]: the first [n] bytes, or the
    error of the reader when it ends before [n] bytes were read. *)
Definition CopyN (src : string * error) (n : nat) : result string :=
  let '(data, e) := src in
  if (n <=? len data)%nat then Ok (substring 0 n data) else Err e.

(** func newKey() ([]byte, error), reading from [random] for rand.Reader. *)
Definition newKey (random : string * error) : result string :=
  match CopyN random 64 with
  | Err err => Err err
  | Ok b => Ok b
  end.

(** ** Host names and listening addresses *)

(** func hostOf(name string, port int) string *)
Definition hostOf (name : string) (port : Z) : string :=
  if (port =? 80)%Z || (port =? 443)%Z then name
  else name ++ ":" ++ itoa port.

(** func addrFrom(port int) string *)
Definition addrFrom (port : Z) : string :=
  if (port =? 80)%Z then ":http"
  else if (port =? 443)%Z then ":https"
  else ":" ++ itoa port.

(** ** A deployment, for the concrete runs below *)

(** A key of 64 bytes, as newKey makes them. *)
Definition key0 : string :=
  "0123456789abcdef0123456789abcdef0123456789abcdef0123456789abcdef".

Definition wiki : disp :=
  {| from := "wiki.org.com"; to := "10.0.0.7:8080"; host := "hub.org.com";
     key := key0; domain := "org.com" |}.

Definition alice : user :=
  {| Email := "alice@org.com"; Name := "Alice";
     Picture := "http://pics.org.com/alice.png" |}.

Definition carol : user :=
  {| Email := "carol@org.com"; Name := "Carol"; Picture := "" |}.

(** A profile of another organization whose email merely ends with the
    characters of the configured domain. *)
Definition mallory : user :=
  {| Email := "alice@evilorg.com"; Name := "Alice"; Picture := "" |}.

(** The tokens [encode] makes for alice and for carol under [key0]. *)
Definition alice_token : string :=
  "qw7BJdhPMeFE9-BjprasIdqx65gk_zcDuDI_Nl1r8bw=,eyJFbWFpbCI6ImFsaWNlQG9yZy5jb20iLCJOYW1lIjoiQWxpY2UiLCJQaWN0dXJlIjoiaHR0cDovL3BpY3Mub3JnLmNvbS9hbGljZS5wbmci".

Definition carol_token : string :=
  "YsAgWNaHhb-jMV5tAIMB66YC6W-ZNt3kvNohBsMt2Vw=,eyJFbWFpbCI6ImNhcm9sQG9yZy5jb20iLCJOYW1lIjoiQ2Fyb2wiLCJQaWN0dXJlIjoiIn0K".

(** The cookie a browser presents for carol's token: its URL-escaped form,
    as the handlers set it. *)
Definition carol_cookie : string := url.QueryEscape carol_token.

Definition sessionCookie (value : string) : http.Cookie :=
  {| http.Name := userCookieKey; http.Value := value; http.Path := "/";
     http.MaxAge := 3600 |}.

Definition refused : error := errorString "dial tcp: connection refused".

Definition get (path : string) (cookies form : list (string * string))
  : Request :=
  {| Method := "GET";
     URL := {| url.Scheme := ""; url.Host := ""; url.Path := path;
               url.RawQuery := "" |};
     Header := [("Accept", ["text/html"])];
     Body := "";
     Cookies := cookies;
     Form := form |}.

(** A world whose backend refuses connections and whose identity provider
    answers with the profile [profile]. *)
Definition world (profile : user) : World :=
  {| url_Parse := fun s =>
       Ok {| url.Scheme := "http"; url.Host := "wiki.org.com";
             url.Path := "/dashboard"; url.RawQuery := "" |};
     http_NewRequest := fun _ _ => None;
     client_Do := fun _ => Err refused;
     oauth_AuthCodeURL := fun state =>
       "https://accounts.google.com/o/oauth2/auth?state=" ++ url.QueryEscape state;
     oauth_Exchange := fun _ => None;
     userinfo_Get := fun _ => Ok (json.Encode profile, EOF);
     caller_Write := fun data => (data, None) |}.

(** The values a header holds under a key, over all its entries. *)
Fixpoint values_in (h : http.Header) (key : string) : list string :=
  match h with
  | [] => []
  | (k, vs) :: r =>
      if String.eqb k key then (vs ++ values_in r key)%list
      else values_in r key
  end.

(** A world like [world] whose backend answers every request with a page. *)
Definition page : backend.Response :=
  {| backend.StatusCode := 200;
     backend.Header := [("Content-Type", ["text/html"]); ("X-Served-By", ["wiki-1"])];
     backend.Body := ("<h1>Home</h1>", None) |}.

Definition answering (profile : user) : World :=
  {| url_Parse := url_Parse (world profile);
     http_NewRequest := http_NewRequest (world profile);
     client_Do := fun _ => Ok page;
     oauth_AuthCodeURL := oauth_AuthCodeURL (world profile);
     oauth_Exchange := oauth_Exchange (world profile);
     userinfo_Get := userinfo_Get (world profile);
     caller_Write := caller_Write (world profile) |}.

Definition brokenPipe : error := errorString "write: broken pipe".

(** A world like [answering] whose caller hangs up after four bytes of the
    body. *)
Definition hanging_up (profile : user) : World :=
  {| url_Parse := url_Parse (world profile);
     http_NewRequest := http_NewRequest (world profile);
     client_Do := fun _ => Ok page;
     oauth_AuthCodeURL := oauth_AuthCodeURL (world profile);
     oauth_Exchange := oauth_Exchange (world profile);
     userinfo_Get := userinfo_Get (world profile);
     caller_Write := fun data => (substring 0 4 data, Some brokenPipe) |}.

(** A POST to the logout path, as it reaches the dispatcher of a route. *)
Definition logout_on_route : Request :=
  {| Method := "POST"; URL := URL (get "/__auth__/logout" [] []);
     Header := []; Body := "x="; Cookies := [("u", carol_cookie)];
     Form := [("x", "")] |}.

Definition badRequest : http.call := http.Error "Bad Request" 400.
Definition forbidden : http.call := http.Error "Forbidden" 403.

(** * Properties *)

(** ** Strings *)

Lemma cut_none (sep : ascii) (s : string) :
  strings.contains sep s = false -> strings.cut sep s = None.
Proof.
  induction s as [|c r IH]; simpl; [reflexivity|].
  destruct (byte_eqb c sep); simpl; [discriminate|].
  intros H. rewrite (IH H). reflexivity.
Qed.

Lemma len_app (a b : string) : len (a ++ b) = len a + len b.
Proof. induction a as [|c a IH]; simpl; [reflexivity | now rewrite <- IH]. Qed.

Lemma drop_app (a b : string) : strings.drop (len a) (a ++ b) = b.
Proof. induction a as [|c a IH]; simpl; [reflexivity | exact IH]. Qed.

(** The domain test of the callback accepts every string that ends with the
    suffix, whatever precedes it. *)
Lemma HasSuffix_app (x d : string) : strings.HasSuffix (x ++ d) d = true.
Proof.
  unfold strings.HasSuffix. rewrite len_app.
  replace (len x + len d - len d) with (len x) by lia.
  rewrite drop_app, String.eqb_refl, andb_true_r.
  apply Nat.leb_le. lia.
Qed.

(** ** Base64 *)

(** Induction on strings three bytes at a time. *)
Lemma string_ind3 (P : string -> Prop) :
  P "" -> (forall a, P (String a "")) -> (forall a b, P (String a (String b ""))) ->
  (forall a b c r, P r -> P (String a (String b (String c r)))) ->
  forall s, P s.
Proof.
  intros H0 H1 H2 H3.
  fix IH 1. intros [|a [|b [|c r]]]; [exact H0 | apply H1 | apply H2 |].
  apply H3. apply IH.
Qed.

Lemma code_lt (c : ascii) : (code c < 256)%N.
Proof. apply N_ascii_bounded. Qed.

Lemma byte_of_code (c : ascii) : byte_of (code c) = c.
Proof.
  unfold byte_of, code. rewrite N.mod_small by apply N_ascii_bounded.
  apply ascii_N_embedding.
Qed.

Lemma alphabet (k : nat) :
  (k < 64)%nat ->
  let c := byte_at base64.encodeURL k in
  base64.dec c = Some (N.of_nat k)
  /\ base64.is_pad c = false
  /\ ((code c =? 10) || (code c =? 13))%N = false
  /\ byte_eqb c comma = false.
Proof.
  intros Hk.
  do 64 (destruct k as [|k]; [vm_compute; repeat split; reflexivity|]).
  lia.
Qed.

Lemma enc_facts (x : N) :
  base64.dec (base64.enc x) = Some (x mod 64)%N
  /\ base64.is_pad (base64.enc x) = false
  /\ ((code (base64.enc x) =? 10) || (code (base64.enc x) =? 13))%N = false
  /\ byte_eqb (base64.enc x) comma = false.
Proof.
  unfold base64.enc.
  assert (H : (N.to_nat (x mod 64) < 64)%nat).
  { pose proof (N.mod_upper_bound x 64). lia. }
  destruct (alphabet _ H) as (H1 & H2 & H3 & H4).
  rewrite H1, N2Nat.id. repeat split; assumption.
Qed.

Ltac shifts :=
  repeat first [rewrite N.shiftl_mul_pow2 | rewrite N.shiftr_div_pow2];
  change (2 ^ 18)%N with 262144%N; change (2 ^ 16)%N with 65536%N;
  change (2 ^ 12)%N with 4096%N; change (2 ^ 8)%N with 256%N;
  change (2 ^ 6)%N with 64%N.

Ltac euclid := zify; Z.to_euclidean_division_equations; lia.

Local Open Scope N_scope.

Lemma sextets3 (a b c : N) : a < 256 -> b < 256 -> c < 256 ->
  let v := N.shiftl a 16 + N.shiftl b 8 + c in
  N.shiftl (N.shiftr v 18 mod 64) 18 + N.shiftl (N.shiftr v 12 mod 64) 12
    + N.shiftl (N.shiftr v 6 mod 64) 6 + v mod 64 = v.
Proof. intros Ha Hb Hc. cbv zeta. shifts. euclid. Qed.

Lemma octets3 (a b c : N) : a < 256 -> b < 256 -> c < 256 ->
  let v := N.shiftl a 16 + N.shiftl b 8 + c in
  N.shiftr v 16 mod 256 = a /\ N.shiftr v 8 mod 256 = b /\ v mod 256 = c.
Proof. intros Ha Hb Hc. cbv zeta. shifts. repeat split; euclid. Qed.

Lemma sextets2 (a b : N) : a < 256 -> b < 256 ->
  let v := N.shiftl a 16 + N.shiftl b 8 in
  N.shiftl (N.shiftr v 18 mod 64) 18 + N.shiftl (N.shiftr v 12 mod 64) 12
    + N.shiftl (N.shiftr v 6 mod 64) 6 = v.
Proof. intros Ha Hb. cbv zeta. shifts. euclid. Qed.

Lemma sextets1 (a : N) : a < 256 ->
  let v := N.shiftl a 16 in
  N.shiftr (N.shiftl (N.shiftr v 18 mod 64) 18 + N.shiftl (N.shiftr v 12 mod 64) 12) 16
    mod 256 = a.
Proof. intros Ha. cbv zeta. shifts. euclid. Qed.

Lemma octets2 (a b : N) : a < 256 -> b < 256 ->
  let v := N.shiftl a 16 + N.shiftl b 8 in
  N.shiftr v 16 mod 256 = a /\ N.shiftr v 8 mod 256 = b.
Proof. intros Ha Hb. cbv zeta. shifts. repeat split; euclid. Qed.

Local Close Scope N_scope.

Lemma byte_of_mod (n : N) (c : ascii) : (n mod 256)%N = code c -> byte_of n = c.
Proof. intros H. unfold byte_of. rewrite H. apply ascii_N_embedding. Qed.

Lemma decode_quantum (a b c : ascii) (rest : string) :
  base64.decode_quanta (base64.quantum (code a) (code b) (code c) ++ rest)
  = (String a (String b (String c (fst (base64.decode_quanta rest)))),
     snd (base64.decode_quanta rest)).
Proof.
  unfold base64.quantum. cbv zeta. cbn [append base64.decode_quanta].
  set (v := (N.shiftl (code a) 16 + N.shiftl (code b) 8 + code c)%N).
  destruct (enc_facts (N.shiftr v 18)) as (-> & _).
  destruct (enc_facts (N.shiftr v 12)) as (-> & _).
  destruct (enc_facts (N.shiftr v 6)) as (-> & _).
  destruct (enc_facts v) as (-> & _).
  destruct (base64.decode_quanta rest) as [out e]. cbn [fst snd].
  pose proof (sextets3 _ _ _ (code_lt a) (code_lt b) (code_lt c)) as Hs.
  cbv zeta in Hs. fold v in Hs. rewrite Hs.
  destruct (octets3 _ _ _ (code_lt a) (code_lt b) (code_lt c)) as (Ha & Hb & Hc).
  fold v in Ha, Hb, Hc.
  rewrite (byte_of_mod _ _ Ha), (byte_of_mod _ _ Hb), (byte_of_mod _ _ Hc).
  reflexivity.
Qed.

Lemma decode_tail1 (a : ascii) :
  base64.decode_quanta (base64.tail [code a]) = (String a "", None).
Proof.
  unfold base64.tail. cbv zeta. cbn [base64.decode_quanta].
  set (v := N.shiftl (code a) 16).
  destruct (enc_facts (N.shiftr v 18)) as (-> & _).
  destruct (enc_facts (N.shiftr v 12)) as (-> & _).
  change (base64.dec "=") with (@None N).
  change (base64.is_pad "=") with true. cbn [andb].
  pose proof (sextets1 _ (code_lt a)) as Hs. cbv zeta in Hs. fold v in Hs.
  rewrite (byte_of_mod _ _ Hs). reflexivity.
Qed.

Lemma decode_tail2 (a b : ascii) :
  base64.decode_quanta (base64.tail [code a; code b])
  = (String a (String b ""), None).
Proof.
  unfold base64.tail. cbv zeta. cbn [base64.decode_quanta].
  set (v := (N.shiftl (code a) 16 + N.shiftl (code b) 8)%N).
  destruct (enc_facts (N.shiftr v 18)) as (-> & _).
  destruct (enc_facts (N.shiftr v 12)) as (-> & _).
  destruct (enc_facts (N.shiftr v 6)) as (-> & _).
  change (base64.dec "=") with (@None N).
  change (base64.is_pad "=") with true. cbv iota.
  pose proof (sextets2 _ _ (code_lt a) (code_lt b)) as Hs.
  cbv zeta in Hs. fold v in Hs. rewrite Hs.
  destruct (octets2 _ _ (code_lt a) (code_lt b)) as (Ha & Hb).
  fold v in Ha, Hb.
  rewrite (byte_of_mod _ _ Ha), (byte_of_mod _ _ Hb). reflexivity.
Qed.

Lemma groups3 (a b c : ascii) (r : string) :
  base64.groups (bytes_of_string (String a (String b (String c r))))
  = (base64.quantum (code a) (code b) (code c)
       ++ fst (base64.groups (bytes_of_string r)),
     snd (base64.groups (bytes_of_string r))).
Proof.
  cbn [bytes_of_string base64.groups].
  destruct (base64.groups (bytes_of_string r)). reflexivity.
Qed.

Lemma quantum_app (a b c : N) (s t : string) :
  (base64.quantum a b c ++ s) ++ t = base64.quantum a b c ++ (s ++ t).
Proof. reflexivity. Qed.

Lemma EncodeToString3 (a b c : ascii) (r : string) :
  base64.EncodeToString (String a (String b (String c r)))
  = base64.quantum (code a) (code b) (code c) ++ base64.EncodeToString r.
Proof.
  unfold base64.EncodeToString. rewrite groups3.
  destruct (base64.groups (bytes_of_string r)). reflexivity.
Qed.

Lemma Write3 (a b c : ascii) (r : string) :
  base64.Write (String a (String b (String c r)))
  = base64.quantum (code a) (code b) (code c) ++ base64.Write r.
Proof. unfold base64.Write. rewrite groups3. reflexivity. Qed.

(** A quantum has neither newlines nor commas. *)
Lemma quantum_plain (a b c : N) (r : string) :
  base64.strip_newlines (base64.quantum a b c ++ r)
    = base64.quantum a b c ++ base64.strip_newlines r
  /\ strings.contains comma (base64.quantum a b c ++ r)
    = strings.contains comma r.
Proof.
  unfold base64.quantum. cbv zeta.
  cbn [append base64.strip_newlines strings.contains].
  set (v := (N.shiftl a 16 + N.shiftl b 8 + c)%N).
  destruct (enc_facts (N.shiftr v 18)) as (_ & _ & -> & ->).
  destruct (enc_facts (N.shiftr v 12)) as (_ & _ & -> & ->).
  destruct (enc_facts (N.shiftr v 6)) as (_ & _ & -> & ->).
  destruct (enc_facts v) as (_ & _ & -> & ->).
  split; reflexivity.
Qed.

Lemma tail1_plain (a : N) :
  base64.strip_newlines (base64.tail [a]) = base64.tail [a]
  /\ strings.contains comma (base64.tail [a]) = false.
Proof.
  unfold base64.tail. cbv zeta.
  cbn [base64.strip_newlines strings.contains].
  set (v := N.shiftl a 16).
  destruct (enc_facts (N.shiftr v 18)) as (_ & _ & -> & ->).
  destruct (enc_facts (N.shiftr v 12)) as (_ & _ & -> & ->).
  split; reflexivity.
Qed.

Lemma tail2_plain (a b : N) :
  base64.strip_newlines (base64.tail [a; b]) = base64.tail [a; b]
  /\ strings.contains comma (base64.tail [a; b]) = false.
Proof.
  unfold base64.tail. cbv zeta.
  cbn [base64.strip_newlines strings.contains].
  set (v := (N.shiftl a 16 + N.shiftl b 8)%N).
  destruct (enc_facts (N.shiftr v 18)) as (_ & _ & -> & ->).
  destruct (enc_facts (N.shiftr v 12)) as (_ & _ & -> & ->).
  destruct (enc_facts (N.shiftr v 6)) as (_ & _ & -> & ->).
  split; reflexivity.
Qed.

Lemma EncodeToString_plain (s : string) :
  base64.strip_newlines (base64.EncodeToString s) = base64.EncodeToString s
  /\ strings.contains comma (base64.EncodeToString s) = false.
Proof.
  induction s as [| a | a b | a b c r [IH1 IH2]] using string_ind3.
  - split; reflexivity.
  - apply tail1_plain.
  - apply tail2_plain.
  - rewrite EncodeToString3.
    destruct (quantum_plain (code a) (code b) (code c) (base64.EncodeToString r))
      as [-> ->].
    rewrite IH1. split; [reflexivity | exact IH2].
Qed.

Lemma decode_quanta_EncodeToString (s : string) :
  base64.decode_quanta (base64.EncodeToString s) = (s, None).
Proof.
  induction s as [| a | a b | a b c r IH] using string_ind3.
  - reflexivity.
  - apply decode_tail1.
  - apply decode_tail2.
  - rewrite EncodeToString3, decode_quantum, IH. reflexivity.
Qed.

(** Decoding inverts encoding. *)
Lemma DecodeString_EncodeToString (s : string) :
  base64.DecodeString (base64.EncodeToString s) = Ok s.
Proof.
  unfold base64.DecodeString.
  rewrite (proj1 (EncodeToString_plain s)), decode_quanta_EncodeToString.
  reflexivity.
Qed.

Lemma Write_facts (s : string) :
  base64.strip_newlines (base64.Write s) = base64.Write s
  /\ base64.decode_quanta (base64.Write s) = (whole_groups s, None)
  /\ exists k, len (base64.Write s) = 4 * k.
Proof.
  induction s as [| a | a b | a b c r (IH1 & IH2 & k & IH3)] using string_ind3;
    try (repeat split; try reflexivity; exists 0; reflexivity).
  rewrite Write3.
  rewrite (proj1 (quantum_plain _ _ _ _)), IH1, decode_quantum, IH2.
  repeat split. exists (S k).
  unfold base64.quantum. cbv zeta. cbn [append len String.length].
  fold (len (base64.Write r)). rewrite IH3. lia.
Qed.

Lemma substring_all (s : string) : substring 0 (len s) s = s.
Proof. induction s as [|a s IH]; simpl; [reflexivity | now rewrite IH]. Qed.

(** What the decoder reads back from an encoder that was never closed:
    the whole three-byte groups of what was written. *)
Lemma NewDecoder_Write (s : string) :
  base64.NewDecoder (base64.Write s) = (whole_groups s, EOF).
Proof.
  destruct (Write_facts s) as (H1 & H2 & k & H3).
  unfold base64.NewDecoder. cbv zeta. rewrite H1, H3.
  replace (4 * (4 * k / 4)) with (4 * k)
    by (rewrite (Nat.mul_comm 4 k), Nat.div_mul by discriminate; lia).
  rewrite <- H3, substring_all, H2, Nat.ltb_irrefl. reflexivity.
Qed.

(** ** Decoding *)

(** C9. For every key, decoding the empty token, or any token without a
    comma, returns the error "Invalid user cookie": [decodeUser] is a total
    function of the token and the key that returns either a user or an
    error, and it has no access to the session cache. *)
Theorem decodeUser_without_comma (key c : string) :
  c = "" \/ strings.contains comma c = false ->
  decodeUser c key = Err (invalidCookie c).
Proof.
  intros H.
  assert (Hc : strings.contains comma c = false)
    by (destruct H as [-> | H]; [reflexivity | exact H]).
  unfold decodeUser, strings.SplitN2.
  rewrite (cut_none _ _ Hc). reflexivity.
Qed.

Lemma decodeUser_without_comma_witness :
  decodeUser "" key0 = Err (invalidCookie "")
  /\ decodeUser "bm90IGEgdG9rZW4=" key0 = Err (invalidCookie "bm90IGEgdG9rZW4=").
Proof.
  split.
  - apply decodeUser_without_comma. left. reflexivity.
  - apply decodeUser_without_comma. right. reflexivity.
Defined.

(** ** The bridge-completion endpoint *)

(** C5. On the bridge-completion endpoint, with [p] starting with a slash and
    a non-empty [c] that is neither in the cache nor decodes under the key,
    the response is 403 Forbidden, has no Location header (no redirect is
    issued) and sets no cookie. *)
Theorem serveHttpAuth_forbidden (d : disp) (c0 : lilcache.Cache) (r : Request)
  (e : error) :
  FormValue r "c" <> "" ->
  strings.HasPrefix (FormValue r "p") "/" = true ->
  fst (lilcache.Get (FormValue r "c") c0) = None ->
  decodeUser (FormValue r "c") (key d) = Err e ->
  let s := serveHttpAuth d c0 http.fresh r in
  http.status (response s) = Some 403
  /\ http.calls (response s) = [forbidden]
  /\ http.has_location (response s) = false
  /\ http.cookies (response s) = []
  /\ ended s = Returned.
Proof.
  intros Hc Hp Hmiss Hdec. unfold serveHttpAuth.
  apply String.eqb_neq in Hc. rewrite Hc, Hp. simpl.
  destruct (lilcache.Get (FormValue r "c") c0) as [hit c1].
  simpl in Hmiss. subst hit. rewrite Hdec. simpl.
  repeat split; reflexivity.
Qed.

Lemma serveHttpAuth_forbidden_witness :
  let r := get "/__auth__/" [] [("c", "forged,token"); ("p", "/dashboard")] in
  let s := serveHttpAuth wiki (lilcache.New 50) http.fresh r in
  http.status (response s) = Some 403
  /\ http.calls (response s) = [forbidden]
  /\ http.has_location (response s) = false
  /\ http.cookies (response s) = []
  /\ ended s = Returned.
Proof.
  apply (serveHttpAuth_forbidden wiki (lilcache.New 50)
           (get "/__auth__/" [] [("c", "forged,token"); ("p", "/dashboard")])
           (invalidCookie "forged,token")).
  - discriminate.
  - reflexivity.
  - reflexivity.
  - vm_compute. reflexivity.
Defined.

(** C7. On the bridge-completion endpoint, an empty [c] or a [p] that does
    not start with a slash is answered 400 Bad Request; otherwise, when [c]
    is valid (a cache hit, or a token that decodes under the key), a cookie
    is set whose value is the URL-escaped [c], with path "/" and max-age
    3600, and then the response redirects to [p] with status 302. *)
Theorem serveHttpAuth_bridge (d : disp) (c0 : lilcache.Cache) (r : Request) :
  let c := FormValue r "c" in
  let p := FormValue r "p" in
  let s := serveHttpAuth d c0 http.fresh r in
  (c = "" \/ strings.HasPrefix p "/" = false ->
   http.calls (response s) = [badRequest]
   /\ http.status (response s) = Some 400)
  /\ (c <> "" -> strings.HasPrefix p "/" = true ->
      (fst (lilcache.Get c c0) <> None \/ exists u, decodeUser c (key d) = Ok u) ->
      http.calls (response s) =
        [http.SetCookie {| http.Name := userCookieKey;
                           http.Value := url.QueryEscape c;
                           http.Path := "/";
                           http.MaxAge := 3600 |};
         http.Redirect p 302]
      /\ http.status (response s) = Some 302).
Proof.
  cbv zeta. unfold serveHttpAuth. split.
  - intros [Hc | Hp].
    + rewrite Hc. simpl. split; reflexivity.
    + rewrite Hp. rewrite orb_true_r. split; reflexivity.
  - intros Hc Hp Hvalid.
    apply String.eqb_neq in Hc. rewrite Hc, Hp. simpl.
    destruct (lilcache.Get (FormValue r "c") c0) as [hit c1]. simpl in Hvalid.
    destruct hit as [u|].
    + split; reflexivity.
    + destruct Hvalid as [H | [u Hu]]; [congruence|].
      rewrite Hu. split; reflexivity.
Qed.

Lemma serveHttpAuth_bridge_witness :
  http.calls (response (serveHttpAuth wiki (lilcache.New 50) http.fresh
     (get "/__auth__/" [] [("c", ""); ("p", "/dashboard")]))) = [badRequest]
  /\ http.calls (response (serveHttpAuth wiki (lilcache.New 50) http.fresh
       (get "/__auth__/" [] [("c", carol_token); ("p", "/dashboard")]))) =
     [http.SetCookie (sessionCookie carol_cookie); http.Redirect "/dashboard" 302].
Proof.
  split.
  - apply (proj1 (serveHttpAuth_bridge wiki (lilcache.New 50)
             (get "/__auth__/" [] [("c", ""); ("p", "/dashboard")]))).
    left. reflexivity.
  - apply (proj2 (serveHttpAuth_bridge wiki (lilcache.New 50)
             (get "/__auth__/" [] [("c", carol_token); ("p", "/dashboard")]))).
    + discriminate.
    + reflexivity.
    + right. exists carol. vm_compute. reflexivity.
Defined.

(** ** Logout *)

(** The calls of the logout handler: for a POST, the session cookie with an
    empty value and the field MaxAge 0, the content type text/plain and the
    body "ok." with the implicit status 200; for any other method, 405
    Method Not Allowed alone. *)
Theorem logout_post_only (r : Request) :
  let w := logout http.fresh r in
  (Method r = "POST" ->
   http.status w = Some 200
   /\ http.Values (http.header w) "Content-Type" = ["text/plain"]
   /\ http.written_of (http.calls w) = "ok." ++ String json.newline ""
   /\ http.cookies w =
        [{| http.Name := userCookieKey; http.Value := "";
            http.Path := "/"; http.MaxAge := 0 |}])
  /\ (Method r <> "POST" ->
      http.status w = Some 405
      /\ http.calls w = [http.Error "Method Not Allowed" 405]
      /\ http.cookies w = []).
Proof.
  cbv zeta. unfold logout. split.
  - intros ->. simpl. repeat split; reflexivity.
  - intros H. apply String.eqb_neq in H. rewrite H. simpl.
    repeat split; reflexivity.
Qed.

Lemma logout_post_only_witness :
  http.status (logout http.fresh
     {| Method := "POST"; URL := URL (get "/__auth__/logout" [] []);
        Header := []; Body := "x="; Cookies := [("u", carol_cookie)];
        Form := [("x", "")] |}) = Some 200
  /\ http.status (logout http.fresh (get "/__auth__/logout" [] [])) = Some 405.
Proof.
  split.
  - apply (proj1 (logout_post_only _)). reflexivity.
  - apply (proj2 (logout_post_only _)). discriminate.
Defined.

(** C8. The logout handler answers a POST with status 200 and the body
    "ok." of content type text/plain, but the session cookie it sets is not
    cleared with max-age 0: the cookie is passed with the field MaxAge 0,
    for which no Max-Age attribute is written, so the one Set-Cookie line
    of the response is "u=; Path=/".  The line "u=; Path=/; Max-Age=0" is
    that of the same cookie with a negative MaxAge.  Any other method is
    answered 405 Method Not Allowed and no cookie is set. *)
Theorem logout_cookie_without_max_age (r : Request) :
  let w := logout http.fresh r in
  (Method r = "POST" ->
   http.status w = Some 200
   /\ http.Values (http.header w) "Content-Type" = ["text/plain"]
   /\ http.written_of (http.calls w) = "ok." ++ String json.newline ""
   /\ (exists c, http.cookies w = [c] /\ http.MaxAge c = 0%Z
         /\ http.set_cookie_lines w = [http.CookieString c]
         /\ http.CookieString c = "u=; Path=/"
         /\ http.CookieString
              {| http.Name := http.Name c; http.Value := http.Value c;
                 http.Path := http.Path c; http.MaxAge := (-1)%Z |}
            = "u=; Path=/; Max-Age=0"))
  /\ (Method r <> "POST" ->
      http.status w = Some 405
      /\ http.calls w = [http.Error "Method Not Allowed" 405]
      /\ http.set_cookie_lines w = []).
Proof.
  cbv zeta. unfold logout. split.
  - intros ->. simpl. repeat split; try reflexivity.
    eexists. split; [reflexivity|]. repeat split; reflexivity.
  - intros H. apply String.eqb_neq in H. rewrite H. simpl.
    repeat split; reflexivity.
Qed.

Lemma logout_cookie_without_max_age_witness :
  http.set_cookie_lines (logout http.fresh logout_on_route) = ["u=; Path=/"]
  /\ http.set_cookie_lines (logout http.fresh (get "/__auth__/logout" [] []))
     = [].
Proof.
  split.
  - destruct (proj1 (logout_cookie_without_max_age logout_on_route) eq_refl)
      as (_ & _ & _ & c & _ & _ & Hl & Hc & _).
    rewrite Hl, Hc. reflexivity.
  - apply (proj2 (logout_cookie_without_max_age
                    (get "/__auth__/logout" [] []))).
    discriminate.
Defined.

(** ** The forwarder *)

Lemma Values_Add_same (h : http.Header) (k v : string) :
  http.Values (http.Add h k v) k = (http.Values h k ++ [v])%list.
Proof.
  induction h as [|[k' vs] h IH]; simpl.
  - rewrite String.eqb_refl. reflexivity.
  - destruct (String.eqb k' k) eqn:E; simpl; rewrite E; [reflexivity | exact IH].
Qed.

Lemma Values_Add_other (h : http.Header) (k k' v : string) :
  k <> k' -> http.Values (http.Add h k v) k' = http.Values h k'.
Proof.
  intros Hne. induction h as [|[k0 vs] h IH]; simpl.
  - apply String.eqb_neq in Hne. rewrite Hne. reflexivity.
  - destruct (String.eqb k0 k) eqn:E; simpl.
    + apply String.eqb_eq in E. subst k0.
      apply String.eqb_neq in Hne. rewrite Hne. reflexivity.
    + destruct (String.eqb k0 k'); [reflexivity | exact IH].
Qed.

(** The two identity headers of the request built for the backend: after
    whatever the inbound request carried under these keys, both hold the
    escaped email. *)
Lemma backendRequest_headers (d : disp) (r : Request) (u : user) :
  let h := outbound.Header (backendRequest d r u) in
  let inbound := copyHeaders [] (Header r) in
  http.Values h "X-Underpants-Email"
    = (http.Values inbound "X-Underpants-Email" ++ [url.QueryEscape (Email u)])%list
  /\ http.Values h "X-Underpants-Name"
    = (http.Values inbound "X-Underpants-Name" ++ [url.QueryEscape (Email u)])%list.
Proof.
  cbv zeta. unfold backendRequest. cbn [outbound.Header]. split.
  - rewrite Values_Add_other by discriminate. apply Values_Add_same.
  - rewrite Values_Add_same. rewrite Values_Add_other by discriminate.
    reflexivity.
Qed.

(** An authenticated request is forwarded with the request
    [backendRequest] builds, whether the backend answers or not. *)
Lemma serveHttpProxy_sent (W : World) (d : disp) (c0 c1 : lilcache.Cache)
  (r : Request) (u : user) :
  userFrom r c0 (key d) = (Some u, c1) ->
  http_NewRequest W (Method r) (url.String (urlFor (to d) r)) = None ->
  sent (serveHttpProxy W d c0 http.fresh r) = Some (backendRequest d r u).
Proof.
  intros Hu Hn. unfold serveHttpProxy. rewrite Hu, Hn.
  destruct (client_Do W (backendRequest d r u)); reflexivity.
Qed.

(** C1. The request forwarded for carol, whose session is in the cache:
    the header X-Underpants-Email holds her escaped email, and the header
    X-Underpants-Name holds the escaped email again, not her escaped display
    name "Carol". *)
Theorem serveHttpProxy_name_header_repeats_email :
  let r := get "/dashboard" [("u", carol_cookie)] [] in
  let c0 := lilcache.Put carol_token carol (lilcache.New 50) in
  let s := serveHttpProxy (world carol) wiki c0 http.fresh r in
  fst (userFrom r c0 key0) = Some carol
  /\ sent s = Some (backendRequest wiki r carol)
  /\ http.Values (outbound.Header (backendRequest wiki r carol))
       "X-Underpants-Email" = ["carol%40org.com"]
  /\ http.Values (outbound.Header (backendRequest wiki r carol))
       "X-Underpants-Name" = ["carol%40org.com"]
  /\ url.QueryEscape (Name carol) = "Carol".
Proof. vm_compute. repeat split; reflexivity. Qed.

(** C4, as the code has it. When the call to the backend fails for an
    authenticated request, the forwarder panics with the error of the
    transport: the handler is terminated there, and it has written no
    status, no header and no body to the caller. *)
Theorem serveHttpProxy_backend_failure (W : World) (d : disp)
  (c0 c1 : lilcache.Cache) (r : Request) (u : user) (e : error) :
  userFrom r c0 (key d) = (Some u, c1) ->
  http_NewRequest W (Method r) (url.String (urlFor (to d) r)) = None ->
  client_Do W (backendRequest d r u) = Err e ->
  let s := serveHttpProxy W d c0 http.fresh r in
  ended s = Panicked e
  /\ response s = http.fresh
  /\ http.status (response s) = None
  /\ sent s = Some (backendRequest d r u).
Proof.
  intros Hu Hn Hd. cbv zeta. unfold serveHttpProxy.
  rewrite Hu, Hn, Hd. simpl. repeat split; reflexivity.
Qed.

Lemma serveHttpProxy_backend_failure_witness :
  let r := get "/wiki/Home" [("u", carol_cookie)] [] in
  let c0 := lilcache.Put carol_token carol (lilcache.New 50) in
  ended (serveHttpProxy (world carol) wiki c0 http.fresh r) = Panicked refused.
Proof.
  cbv zeta.
  apply (serveHttpProxy_backend_failure (world carol) wiki
           (lilcache.Put carol_token carol (lilcache.New 50))
           (lilcache.Put carol_token carol (lilcache.New 50))
           (get "/wiki/Home" [("u", carol_cookie)] []) carol refused).
  - vm_compute. reflexivity.
  - reflexivity.
  - reflexivity.
Defined.

(** C4, as the spec has it, fails: carol's request is authenticated by her
    token, the backend refuses the connection, and the response has neither
    status 502 nor status 500, because the handler panicked. *)
Lemma serveHttpProxy_backend_failure_no_status :
  let r := get "/dashboard" [("u", carol_cookie)] [] in
  let s := serveHttpProxy (world carol) wiki (lilcache.New 50) http.fresh r in
  fst (userFrom r (lilcache.New 50) key0) = Some carol
  /\ client_Do (world carol) (backendRequest wiki r carol) = Err refused
  /\ http.status (response s) <> Some 502
  /\ http.status (response s) <> Some 500
  /\ ended s <> Returned.
Proof.
  vm_compute. repeat split; try reflexivity; discriminate.
Qed.

(** ** The session cache *)

(** After a miss, [userFrom] looks the token up under its unescaped form
    [v] and stores the user under the cookie value [c] as it was received. *)
Lemma userFrom_miss (r : Request) (c0 c1 : lilcache.Cache) (key c v : string)
  (u : user) :
  Cookie r userCookieKey = Ok c -> c <> "" ->
  url.QueryUnescape c = Ok v ->
  lilcache.Get v c0 = (None, c1) ->
  decodeUser v key = Ok u ->
  userFrom r c0 key = (Some u, lilcache.Put c u c1).
Proof.
  intros Hc Hne Hv Hg Hd. unfold userFrom.
  apply String.eqb_neq in Hne. rewrite Hc, Hne, Hv, Hg, Hd. reflexivity.
Qed.

(** One byte of an escaped string: escaping adds no comma, and unescaping
    gives the byte back. *)
Lemma QueryEscape_step (c : ascii) (r : string) :
  (strings.contains comma (url.QueryEscape (String c r))
   = strings.contains comma (url.QueryEscape r))
  /\ url.QueryUnescape (url.QueryEscape (String c r))
     = match url.QueryUnescape (url.QueryEscape r) with
       | Ok t => Ok (String c t)
       | Err e => Err e
       end.
Proof.
  destruct c as [[] [] [] [] [] [] [] []]; split; reflexivity.
Qed.

Lemma QueryEscape_no_comma (s : string) :
  strings.contains comma (url.QueryEscape s) = false.
Proof.
  induction s as [|c r IH]; [reflexivity|].
  rewrite (proj1 (QueryEscape_step c r)). exact IH.
Qed.

Lemma QueryUnescape_QueryEscape (s : string) :
  url.QueryUnescape (url.QueryEscape s) = Ok s.
Proof.
  induction s as [|c r IH]; [reflexivity|].
  rewrite (proj2 (QueryEscape_step c r)), IH. reflexivity.
Qed.

Lemma cut_some_contains (sep : ascii) (s a b : string) :
  strings.cut sep s = Some (a, b) -> strings.contains sep s = true.
Proof.
  revert a b. induction s as [|c r IH]; simpl; intros a b H; [discriminate|].
  destruct (byte_eqb c sep); [reflexivity|]. simpl.
  destruct (strings.cut sep r) as [[a' b']|]; [|discriminate].
  eapply IH. reflexivity.
Qed.

Lemma decodeUser_ok_comma (v key : string) (u : user) :
  decodeUser v key = Ok u -> strings.contains comma v = true.
Proof.
  unfold decodeUser, strings.SplitN2. intros H.
  destruct (strings.cut comma v) as [[a b]|] eqn:E; [|discriminate].
  eapply cut_some_contains. exact E.
Qed.

Lemma lookup_remove_other (k k' : string) (l : list (string * user)) :
  k <> k' -> lilcache.lookup k' (lilcache.remove k l) = lilcache.lookup k' l.
Proof.
  intros Hne. induction l as [|[k0 v0] l IH]; simpl; [reflexivity|].
  destruct (String.eqb k0 k) eqn:E; simpl.
  - apply String.eqb_eq in E. subst k0.
    apply String.eqb_neq in Hne. rewrite Hne. exact IH.
  - destruct (String.eqb k0 k'); [reflexivity | exact IH].
Qed.

Lemma lookup_firstn_none (k : string) (n : nat) (l : list (string * user)) :
  lilcache.lookup k l = None -> lilcache.lookup k (firstn n l) = None.
Proof.
  revert n. induction l as [|[k0 v0] l IH]; intros [|n]; simpl; try reflexivity.
  destruct (String.eqb k0 k); [discriminate | apply IH].
Qed.

Lemma Get_miss (k : string) (c : lilcache.Cache) :
  fst (lilcache.Get k c) = None ->
  lilcache.Get k c = (None, c) /\ lilcache.lookup k (lilcache.entries c) = None.
Proof.
  unfold lilcache.Get.
  destruct (lilcache.lookup k (lilcache.entries c)); simpl; [discriminate|].
  split; reflexivity.
Qed.

(** Identity resolution for a token that decodes but is not in the cache,
    presented in the cookie as the handlers set it, URL-escaped: the user is
    stored under the escaped cookie value, which differs from the token, and
    the token itself, the key of every lookup, is a miss afterwards as it
    was before. *)
Lemma userFrom_puts_under_escaped_key (r : Request) (c0 : lilcache.Cache)
  (key v : string) (u : user) :
  Cookie r userCookieKey = Ok (url.QueryEscape v) ->
  fst (lilcache.Get v c0) = None ->
  decodeUser v key = Ok u ->
  userFrom r c0 key = (Some u, lilcache.Put (url.QueryEscape v) u c0)
  /\ url.QueryEscape v <> v
  /\ fst (lilcache.Get v (lilcache.Put (url.QueryEscape v) u c0)) = None.
Proof.
  intros Hc Hmiss Hd.
  destruct (Get_miss v c0 Hmiss) as [Hg Hl].
  pose proof (decodeUser_ok_comma v key u Hd) as Hcomma.
  assert (Hne : url.QueryEscape v <> v).
  { intros E. pose proof (QueryEscape_no_comma v) as H.
    rewrite E in H. congruence. }
  split; [|split; [exact Hne|]].
  - apply (userFrom_miss r c0 c0 key (url.QueryEscape v) v u); try assumption.
    + intros E. destruct v as [|a v]; [discriminate Hcomma|].
      destruct a as [[] [] [] [] [] [] [] []]; discriminate E.
    + apply QueryUnescape_QueryEscape.
  - unfold lilcache.Get, lilcache.Put. cbn [lilcache.entries].
    rewrite lookup_firstn_none; [reflexivity|].
    cbn [lilcache.lookup].
    apply String.eqb_neq in Hne. rewrite Hne.
    rewrite lookup_remove_other by (apply String.eqb_neq; exact Hne).
    exact Hl.
Qed.

(** C6. Carol presents her token in the cookie, URL-escaped as the handlers
    set it, to a process whose cache is empty.  Identity resolution looks
    the token up under its raw form, decodes it, and stores carol under the
    escaped cookie value: the raw token, the key of every lookup, is still
    a miss afterwards, and the same request misses again. *)
Theorem userFrom_put_key_differs :
  let r := get "/dashboard" [("u", carol_cookie)] [] in
  let c1 := snd (userFrom r (lilcache.New 50) key0) in
  url.QueryUnescape carol_cookie = Ok carol_token
  /\ carol_cookie <> carol_token
  /\ fst (userFrom r (lilcache.New 50) key0) = Some carol
  /\ lilcache.entries c1 = [(carol_cookie, carol)]
  /\ fst (lilcache.Get carol_token c1) = None
  /\ snd (userFrom r c1 key0) = c1.
Proof.
  vm_compute. repeat split; try reflexivity; discriminate.
Qed.

(** ** The callback of the identity provider *)

(** C10. The domain test of the callback is a suffix test on the whole
    email: every string that ends with the configured domain passes it.
    With the domain "org.com", the profile of alice@evilorg.com is accepted:
    the callback stores her token in the cache, sets it as the cookie and
    redirects to the bridge-completion endpoint, instead of answering
    403. *)
Theorem callback_domain_suffix_unanchored :
  (forall x d, strings.HasSuffix (x ++ d) d = true)
  /\ let r := get "/__auth__/" []
                [("code", "4/P7q7W91"); ("state", "http://wiki.org.com/dashboard")] in
     let s := callback (world mallory) "org.com" key0 (lilcache.New 50)
                http.fresh r in
     Email mallory = "alice@evilorg.com"
     /\ http.status (response s) = Some 302
     /\ exists v,
          encode mallory key0 = Ok v
          /\ lilcache.entries (cache s) = [(v, mallory)]
          /\ http.calls (response s) =
               [http.SetCookie (sessionCookie (url.QueryEscape v));
                http.Redirect
                  ("http://wiki.org.com/__auth__/?c=" ++ url.QueryEscape v
                     ++ "&p=%2Fdashboard") 302].
Proof.
  split; [exact HasSuffix_app|].
  cbv zeta. split; [reflexivity|]. split; [vm_compute; reflexivity|].
  eexists. split; [vm_compute; reflexivity|].
  split; vm_compute; reflexivity.
Qed.

(** ** Signature verification *)

Lemma byte_at_ext (s v : string) :
  len s = len v ->
  (forall j, j < len s -> byte_at s j = byte_at v j) ->
  s = v.
Proof.
  revert v. induction s as [|a s IH]; intros [|b v] Hlen Hall;
    simpl in Hlen; try discriminate; [reflexivity|].
  f_equal.
  - apply (Hall 0). simpl. lia.
  - apply IH; [now injection Hlen|].
    intros j Hj. apply (Hall (S j)). simpl. lia.
Qed.

(** The loop stops at the first index where the two strings differ. *)
Lemma compare_from_spec (s v : string) (n i : nat) :
  i + n = len s ->
  (compare_from s v i n = (true, len s)
   /\ forall j, i <= j -> j < len s -> byte_at s j = byte_at v j)
  \/ (exists k, i <= k /\ k < len s
        /\ byte_at s k <> byte_at v k
        /\ (forall j, i <= j -> j < k -> byte_at s j = byte_at v j)
        /\ compare_from s v i n = (false, S k)).
Proof.
  revert i. induction n as [|n IH]; intros i Hi; simpl.
  - left. split; [f_equal; lia | intros j H1 H2; lia].
  - unfold byte_eqb. destruct (Ascii.eqb (byte_at s i) (byte_at v i)) eqn:E; simpl.
    + apply Ascii.eqb_eq in E.
      destruct (IH (S i)) as [[Hr Hall] | (k & Hk1 & Hk2 & Hne & Hall & Hr)];
        [lia | left | right].
      * split; [exact Hr|]. intros j H1 H2.
        destruct (Nat.eq_dec j i) as [-> | Hji]; [exact E | apply Hall; lia].
      * exists k. split; [lia|]. split; [exact Hk2|]. split; [exact Hne|].
        split; [|exact Hr]. intros j H1 H2.
        destruct (Nat.eq_dec j i) as [-> | Hji]; [exact E | apply Hall; lia].
    + apply Ascii.eqb_neq in E. right. exists i.
      split; [lia|]. split; [lia|]. split; [exact E|].
      split; [intros j H1 H2; lia | reflexivity].
Qed.

(** C2, as the code has it. Signature verification first decodes the
    signature from base64url and fails when that fails; it fails at once
    when the decoded signature and the recomputed code differ in length;
    for equal lengths it compares the bytes in order and returns false at
    the first byte that differs, without looking at the bytes after it, and
    returns true after comparing all bytes when none differs. *)
Theorem validMessage_scan_stops_at_first_mismatch (key sig msg : string) :
  let v := hmac.Sum key msg in
  (forall e, base64.DecodeString sig = Err e ->
     validMessage_scan key sig msg = (false, 0))
  /\ (forall s, base64.DecodeString sig = Ok s -> len s <> len v ->
        validMessage_scan key sig msg = (false, 0))
  /\ (forall s, base64.DecodeString sig = Ok s -> len s = len v ->
        (s = v /\ validMessage_scan key sig msg = (true, len s))
        \/ (exists k, k < len s
              /\ byte_at s k <> byte_at v k
              /\ (forall j, j < k -> byte_at s j = byte_at v j)
              /\ validMessage_scan key sig msg = (false, S k))).
Proof.
  cbv zeta. unfold validMessage_scan. repeat split.
  - intros e ->. reflexivity.
  - intros s -> Hne.
    destruct (Nat.eqb (len (hmac.Sum key msg)) (len s)) eqn:E; [|reflexivity].
    apply Nat.eqb_eq in E. congruence.
  - intros s -> Hlen.
    rewrite <- Hlen, Nat.eqb_refl. simpl.
    destruct (compare_from_spec s (hmac.Sum key msg) (len s) 0 eq_refl)
      as [[Hr Hall] | (k & _ & Hk & Hne & Hall & Hr)].
    + left. split; [|exact Hr].
      apply byte_at_ext; [exact Hlen|]. intros j Hj. apply Hall; lia.
    + right. exists k. repeat split; try assumption.
      intros j Hj. apply Hall; lia.
Qed.

(** C2, as the spec has it, fails.  The signature below decodes to 32 zero
    bytes, as long as the code recomputed for the payload; the comparison
    returns false after the first byte, not after all 32. *)
Lemma validMessage_exits_early :
  let sig := "AAAAAAAAAAAAAAAAAAAAAAAAAAAAAAAAAAAAAAAAAAA=" in
  exists s,
    base64.DecodeString sig = Ok s
    /\ len s = 32
    /\ len (hmac.Sum key0 "payload") = 32
    /\ validMessage key0 sig "payload" = false
    /\ snd (validMessage_scan key0 sig "payload") = 1.
Proof.
  eexists. split; [vm_compute; reflexivity|].
  repeat split; vm_compute; reflexivity.
Qed.

Lemma validMessage_scan_stops_at_first_mismatch_witness :
  let sig := "cfcZNlwLStWz5T2GypI77872cLBNQwamqYlRAkzlyiZ=" in
  exists s,
    base64.DecodeString sig = Ok s
    /\ ((s = hmac.Sum key0 "payload"
         /\ validMessage_scan key0 sig "payload" = (true, len s))
        \/ (exists k, k < len s
              /\ byte_at s k <> byte_at (hmac.Sum key0 "payload") k
              /\ (forall j, j < k ->
                    byte_at s j = byte_at (hmac.Sum key0 "payload") j)
              /\ validMessage_scan key0 sig "payload" = (false, S k))).
Proof.
  cbv zeta.
  destruct (base64.DecodeString "cfcZNlwLStWz5T2GypI77872cLBNQwamqYlRAkzlyiZ=")
    as [s|e] eqn:E; [|vm_compute in E; discriminate].
  exists s. split; [reflexivity|].
  apply (proj2 (proj2 (validMessage_scan_stops_at_first_mismatch
                         key0 "cfcZNlwLStWz5T2GypI77872cLBNQwamqYlRAkzlyiZ="
                         "payload")) s E).
  vm_compute in E. injection E as <-. vm_compute. reflexivity.
Defined.

(** ** Round trip *)

Lemma cut_app (sep : ascii) (a b : string) :
  strings.contains sep a = false ->
  strings.cut sep (a ++ String sep b) = Some (a, b).
Proof.
  induction a as [|c a IH]; simpl.
  - intros _. unfold byte_eqb. rewrite Ascii.eqb_refl. reflexivity.
  - destruct (byte_eqb c sep); simpl; [discriminate|].
    intros H. rewrite (IH H). reflexivity.
Qed.

Lemma compare_from_same (s : string) (n i : nat) :
  compare_from s s i n = (true, i + n).
Proof.
  revert i. induction n as [|n IH]; intros i; simpl.
  - f_equal. lia.
  - unfold byte_eqb. rewrite Ascii.eqb_refl. simpl. rewrite IH. f_equal. lia.
Qed.

(** The signature [encode] makes for a payload verifies under the same
    key. *)
Lemma validMessage_signed (key msg : string) :
  validMessage key (base64.EncodeToString (hmac.Sum key msg)) msg = true.
Proof.
  unfold validMessage, validMessage_scan.
  rewrite DecodeString_EncodeToString, Nat.eqb_refl. simpl.
  rewrite compare_from_same. reflexivity.
Qed.

(** Decoding a token made by [encode] under the same key: the signature
    verifies, and the user is what the JSON decoder makes of the whole
    three-byte groups of the text [encode] wrote, the rest of the text
    having stayed in the encoder that was never closed. *)
Lemma decodeUser_encode (u : user) (key : string) :
  exists t,
    encode u key = Ok t
    /\ decodeUser t key = json.Decode (whole_groups (json.Encode u), EOF).
Proof.
  eexists. split; [reflexivity|].
  unfold decodeUser, strings.SplitN2.
  rewrite cut_app by apply EncodeToString_plain.
  rewrite validMessage_signed. simpl. rewrite NewDecoder_Write. reflexivity.
Qed.

(** *** Plain identities *)

Lemma htmlSafe_facts (c : ascii) :
  json.htmlSafe c = true ->
  (code c <? 0x80)%N = true
  /\ json.byte_is c 34 = false
  /\ json.byte_is c 92 = false
  /\ (code c <? 0x20)%N = false.
Proof.
  unfold json.htmlSafe, json.byte_is. intros H.
  apply andb_prop in H. destruct H as [H1 H2].
  apply andb_prop in H1. destruct H1 as [H0 H1].
  apply negb_true_iff in H2.
  repeat (apply orb_false_elim in H2; destruct H2 as [H2 ?]).
  repeat split; try assumption.
  apply N.ltb_ge. apply N.leb_le in H0. exact H0.
Qed.

Lemma quote_body_plain (s : string) (fuel : nat) :
  plain s = true -> len s <= fuel -> json.quote_body fuel s = s.
Proof.
  revert fuel. induction s as [|c r IH]; intros fuel Hp Hf.
  - destruct fuel; reflexivity.
  - simpl in Hp. apply andb_prop in Hp. destruct Hp as [Hc Hr].
    unfold len in *. destruct fuel as [|f]; [simpl in Hf; lia|].
    cbn [json.quote_body].
    destruct (htmlSafe_facts c Hc) as (-> & _).
    rewrite Hc. cbn [append]. rewrite IH; [reflexivity | exact Hr |].
    simpl in Hf. lia.
Qed.

Lemma quote_plain (s : string) :
  plain s = true -> json.quote s = String json.dquote (s ++ String json.dquote "").
Proof.
  intros H. unfold json.quote. rewrite quote_body_plain; auto.
Qed.

Lemma scan_string_plain (s rest : string) :
  plain s = true ->
  json.scan_string (s ++ String json.dquote rest) = json.Done s rest.
Proof.
  induction s as [|c r IH]; intros Hp.
  - reflexivity.
  - simpl in Hp. apply andb_prop in Hp. destruct Hp as [Hc Hr].
    cbn [append json.scan_string].
    destruct (htmlSafe_facts c Hc) as (_ & -> & -> & ->).
    rewrite (IH Hr). reflexivity.
Qed.

Lemma unquote_body_plain (s : string) (fuel : nat) :
  plain s = true -> len s <= fuel -> json.unquote_body fuel s = s.
Proof.
  revert fuel. induction s as [|c r IH]; intros fuel Hp Hf.
  - destruct fuel; reflexivity.
  - simpl in Hp. apply andb_prop in Hp. destruct Hp as [Hc Hr].
    unfold len in *. destruct fuel as [|f]; [simpl in Hf; lia|].
    cbn [json.unquote_body].
    destruct (htmlSafe_facts c Hc) as (-> & _ & -> & _).
    rewrite IH; [reflexivity | exact Hr |]. simpl in Hf. lia.
Qed.

Lemma unquote_plain (s : string) : plain s = true -> json.unquote s = s.
Proof. intros H. apply unquote_body_plain; auto. Qed.

Lemma append_assoc (a b c : string) : (a ++ b) ++ c = a ++ (b ++ c).
Proof. induction a as [|x a IH]; simpl; [reflexivity | now rewrite IH]. Qed.

Lemma member_app (name value rest t : string) :
  member name value rest ++ t = member name value (rest ++ t).
Proof.
  unfold member. cbn [append]. rewrite append_assoc. cbn [append].
  rewrite append_assoc. reflexivity.
Qed.

Lemma user_text_app (u : user) (rest t : string) :
  user_text u rest ++ t = user_text u (rest ++ t).
Proof.
  unfold user_text. cbn [append].
  rewrite member_app. cbn [append]. rewrite member_app. cbn [append].
  rewrite member_app. reflexivity.
Qed.

Lemma Marshal_plain (u : user) :
  plain_user u = true -> json.Marshal u = user_text u "}".
Proof.
  unfold plain_user. intros H.
  apply andb_prop in H. destruct H as [H Hp].
  apply andb_prop in H. destruct H as [He Hn].
  unfold json.Marshal.
  rewrite (quote_plain (Email u) He), (quote_plain (Name u) Hn),
    (quote_plain (Picture u) Hp).
  unfold user_text, member.
  change (json.quote "Email") with (String json.dquote ("Email" ++ String json.dquote "")).
  change (json.quote "Name") with (String json.dquote ("Name" ++ String json.dquote "")).
  change (json.quote "Picture") with (String json.dquote ("Picture" ++ String json.dquote "")).
  cbn [append]. repeat (rewrite append_assoc; cbn [append]). reflexivity.
Qed.

Lemma Encode_plain (u : user) :
  plain_user u = true ->
  json.Encode u = user_text u ("}" ++ String json.newline "").
Proof.
  intros H. unfold json.Encode. rewrite (Marshal_plain u H).
  apply user_text_app.
Qed.

Lemma parse_member (f : nat) (acc : list (string * json.value))
  (name value rest : string) :
  plain name = true -> plain value = true ->
  json.parse_members (S (S f)) acc (member name value rest)
  = let acc' := (acc ++ [(name, json.Str value)])%list in
    match json.skip_ws rest with
    | EmptyString => json.More
    | String c r =>
        if json.byte_is c 44 then json.parse_members (S f) acc' (json.skip_ws r)
        else if json.byte_is c 125 then json.Done (json.Object acc') r
        else json.Bad
    end.
Proof.
  intros Hn Hv. unfold member.
  cbn [json.parse_members].
  change (json.byte_is json.dquote 34) with true. cbv iota.
  rewrite (scan_string_plain name _ Hn).
  cbn [append json.skip_ws].
  change (json.isSpace ":") with false. cbv iota.
  change (json.byte_is ":" 58) with true. cbv iota.
  cbn [json.skip_ws].
  change (json.isSpace json.dquote) with false. cbv iota.
  cbn [json.parse_value].
  change (json.byte_is json.dquote 123) with false.
  change (json.byte_is json.dquote 91) with false.
  change (json.byte_is json.dquote 34) with true. cbv iota.
  rewrite (scan_string_plain value _ Hv).
  cbn [json.scan_map]. rewrite (unquote_plain name Hn), (unquote_plain value Hv).
  reflexivity.
Qed.

Lemma parse_user_text (f : nat) (u : user) (rest : string) :
  plain_user u = true ->
  json.parse_value (5 + f) (user_text u rest)
  = match json.skip_ws rest with
    | EmptyString => json.More
    | String c r =>
        if json.byte_is c 44
        then json.parse_members (S f) (members u) (json.skip_ws r)
        else if json.byte_is c 125 then json.Done (json.Object (members u)) r
        else json.Bad
    end.
Proof.
  unfold plain_user. intros H.
  apply andb_prop in H. destruct H as [H Hp].
  apply andb_prop in H. destruct H as [He Hn].
  unfold user_text. cbn [append Nat.add json.parse_value].
  change (json.byte_is "{" 123) with true. cbv iota.
  unfold member at 1. cbn [json.skip_ws].
  change (json.isSpace json.dquote) with false. cbv iota.
  change (json.byte_is json.dquote 125) with false. cbv iota.
  fold (member "Email" (Email u)
          (String "," (member "Name" (Name u)
             (String "," (member "Picture" (Picture u) rest))))).
  rewrite (parse_member _ _ "Email" (Email u) _ eq_refl He). cbv zeta.
  cbn [json.skip_ws]. change (json.isSpace ",") with false. cbv iota.
  change (json.byte_is "," 44) with true. cbv iota.
  unfold member at 1. cbn [json.skip_ws].
  change (json.isSpace json.dquote) with false. cbv iota.
  fold (member "Name" (Name u) (String "," (member "Picture" (Picture u) rest))).
  rewrite (parse_member _ _ "Name" (Name u) _ eq_refl Hn). cbv zeta.
  cbn [json.skip_ws]. change (json.isSpace ",") with false. cbv iota.
  change (json.byte_is "," 44) with true. cbv iota.
  unfold member at 1. cbn [json.skip_ws].
  change (json.isSpace json.dquote) with false. cbv iota.
  fold (member "Picture" (Picture u) rest).
  rewrite (parse_member _ _ "Picture" (Picture u) _ eq_refl Hp). cbv zeta.
  cbn [List.app]. reflexivity.
Qed.

Lemma Unmarshal_members (u : user) :
  json.Unmarshal (json.Object (members u))
    {| Email := ""; Name := ""; Picture := "" |} = Ok u.
Proof. destruct u. reflexivity. Qed.

Lemma fuel_user_text (u : user) (rest : string) :
  exists f, S (len (user_text u rest)) = 5 + f.
Proof.
  unfold user_text, member, len. cbn [append String.length].
  eexists. cbn [Nat.add]. reflexivity.
Qed.

(** The text of a plain user, closed by its brace, decodes to the user,
    whatever follows the brace. *)
Lemma Decode_closed (u : user) (rest : string) (e : error) :
  plain_user u = true ->
  json.Decode (user_text u ("}" ++ rest), e) = Ok u.
Proof.
  intros H. unfold json.Decode.
  destruct (fuel_user_text u ("}" ++ rest)) as [f ->].
  change (json.skip_ws (user_text u ("}" ++ rest)))
    with (user_text u ("}" ++ rest)).
  rewrite (parse_user_text f u _ H).
  cbn [append json.skip_ws]. change (json.isSpace "}") with false. cbv iota.
  change (json.byte_is "}" 44) with false.
  change (json.byte_is "}" 125) with true. cbv iota.
  apply Unmarshal_members.
Qed.

(** The text of a plain user without its closing brace does not decode. *)
Lemma Decode_open (u : user) :
  plain_user u = true ->
  json.Decode (user_text u "", EOF) = Err ErrUnexpectedEOF.
Proof.
  intros H. unfold json.Decode.
  destruct (fuel_user_text u "") as [f ->].
  change (json.skip_ws (user_text u "")) with (user_text u "").
  rewrite (parse_user_text f u _ H). reflexivity.
Qed.

Lemma whole_groups_app (s t : string) :
  len s mod 3 = 0 -> whole_groups (s ++ t) = s ++ whole_groups t.
Proof.
  induction s as [| a | a b | a b c r IH] using string_ind3; intros H.
  - reflexivity.
  - discriminate.
  - discriminate.
  - cbn [append whole_groups]. rewrite IH; [reflexivity|].
    unfold len in *. cbn [String.length] in H.
    replace (S (S (S (String.length r)))) with (String.length r + 1 * 3) in H by lia.
    rewrite Nat.Div0.mod_add in H. exact H.
Qed.

Lemma app_empty (s : string) : s ++ "" = s.
Proof. induction s as [|a s IH]; simpl; [reflexivity | now rewrite IH]. Qed.

Lemma mod3_cases (n : nat) :
  exists q, n = q * 3 \/ n = 1 + q * 3 \/ n = 2 + q * 3.
Proof.
  exists (n / 3). pose proof (Nat.div_mod_eq n 3).
  pose proof (Nat.mod_upper_bound n 3). lia.
Qed.

(** What is left of the text of a plain user in a token: all of it, all of
    it but the newline, or, when its length is 2 modulo 3, all of it but the
    closing brace and the newline. *)
Lemma whole_groups_Encode (u : user) :
  plain_user u = true ->
  whole_groups (json.Encode u)
  = if Nat.eqb (len (json.Encode u) mod 3) 2 then user_text u ""
    else if Nat.eqb (len (json.Encode u) mod 3) 1 then user_text u "}"
    else json.Encode u.
Proof.
  intros H. rewrite (Encode_plain u H).
  set (nl := String json.newline "").
  assert (E1 : user_text u ("}" ++ nl) = user_text u "" ++ ("}" ++ nl))
    by (rewrite user_text_app; reflexivity).
  assert (E2 : user_text u ("}" ++ nl) = user_text u "}" ++ nl)
    by (rewrite user_text_app; reflexivity).
  assert (E3 : user_text u "}" = user_text u "" ++ "}")
    by (rewrite user_text_app; reflexivity).
  assert (Hlen : len (user_text u ("}" ++ nl)) = len (user_text u "") + 2)
    by (rewrite E1, len_app; reflexivity).
  assert (Hlen' : len (user_text u "}") = len (user_text u "") + 1)
    by (rewrite E3, len_app; reflexivity).
  rewrite Hlen.
  destruct (mod3_cases (len (user_text u ""))) as [q [E | [E | E]]].
  - replace (len (user_text u "") + 2) with (2 + q * 3) by lia.
    rewrite Nat.Div0.mod_add. cbn [Nat.modulo Nat.eqb Nat.divmod fst snd Nat.sub].
    rewrite E1, whole_groups_app by (rewrite E; apply Nat.Div0.mod_mul).
    cbn [append whole_groups]. apply app_empty.
  - replace (len (user_text u "") + 2) with (0 + (S q) * 3) by lia.
    rewrite Nat.Div0.mod_add. cbn [Nat.modulo Nat.eqb Nat.divmod fst snd Nat.sub].
    rewrite <- (app_empty (user_text u ("}" ++ nl))) at 1.
    rewrite whole_groups_app; [apply app_empty|].
    rewrite Hlen. replace (len (user_text u "") + 2) with ((S q) * 3) by lia.
    apply Nat.Div0.mod_mul.
  - replace (len (user_text u "") + 2) with (1 + (S q) * 3) by lia.
    rewrite Nat.Div0.mod_add. cbn [Nat.modulo Nat.eqb Nat.divmod fst snd Nat.sub].
    rewrite E2, whole_groups_app; [apply app_empty|].
    rewrite Hlen'. replace (len (user_text u "") + 1) with ((S q) * 3) by lia.
    apply Nat.Div0.mod_mul.
Qed.

(** Decoding the token of a plain user under the key that made it returns
    the user, unless the length of the user's text and its newline is 2
    modulo 3: then the token lacks the closing brace and does not decode. *)
Lemma decodeUser_encode_plain (u : user) (key : string) :
  plain_user u = true ->
  exists t,
    encode u key = Ok t
    /\ decodeUser t key
       = if Nat.eqb (len (json.Encode u) mod 3) 2
         then Err ErrUnexpectedEOF else Ok u.
Proof.
  intros H. destruct (decodeUser_encode u key) as (t & Ht & Hd).
  exists t. split; [exact Ht|]. rewrite Hd, (whole_groups_Encode u H).
  destruct (Nat.eqb (len (json.Encode u) mod 3) 2); [apply Decode_open, H|].
  destruct (Nat.eqb (len (json.Encode u) mod 3) 1).
  - change (user_text u "}") with (user_text u ("}" ++ "")).
    apply Decode_closed, H.
  - rewrite (Encode_plain u H). apply Decode_closed, H.
Qed.

(** C3. For every key, the token made for alice does not decode under that
    key: the text of alice and its newline are 83 bytes, the base64 encoder
    of [encode] is never closed and keeps the last two, the closing brace
    and the newline, and the JSON decoder of [decodeUser] meets the end of
    the payload inside the object. *)
Theorem decodeUser_encode_alice_fails (key : string) :
  exists t,
    encode alice key = Ok t
    /\ decodeUser t key = Err ErrUnexpectedEOF
    /\ decodeUser t key <> Ok alice.
Proof.
  destruct (decodeUser_encode alice key) as (t & Ht & Hd).
  exists t. split; [exact Ht|].
  assert (H : decodeUser t key = Err ErrUnexpectedEOF)
    by (rewrite Hd; vm_compute; reflexivity).
  split; [exact H | rewrite H; discriminate].
Qed.

(** The run under [key0], step by step. *)
Lemma decodeUser_encode_alice_key0 :
  len (json.Encode alice) = 83
  /\ encode alice key0 = Ok alice_token
  /\ json.Encode alice
       = whole_groups (json.Encode alice) ++ "}" ++ String json.newline ""
  /\ decodeUser alice_token key0 = Err ErrUnexpectedEOF.
Proof. repeat split; vm_compute; reflexivity. Qed.

(** The token made for carol, whose text and newline are 54 bytes, decodes
    to carol, under every key. *)
Lemma decodeUser_encode_carol (key : string) :
  exists t, encode carol key = Ok t /\ decodeUser t key = Ok carol.
Proof.
  destruct (decodeUser_encode carol key) as (t & Ht & Hd).
  exists t. split; [exact Ht|]. rewrite Hd. vm_compute. reflexivity.
Qed.

Lemma decodeUser_encode_carol_key0 :
  len (json.Encode carol) = 54
  /\ encode carol key0 = Ok carol_token
  /\ decodeUser carol_token key0 = Ok carol.
Proof. repeat split; vm_compute; reflexivity. Qed.

(** * Further properties *)

(** ** Tokens *)

Lemma len_string_of_bytes (l : list N) : len (string_of_bytes l) = length l.
Proof. induction l as [|b l IH]; simpl; [reflexivity | now rewrite <- IH]. Qed.

(** A SHA-256 digest has 32 bytes, and so has the code hmac.Sum makes. *)
Lemma Sum256_length (msg : list N) : length (sha256.Sum256 msg) = 32.
Proof.
  unfold sha256.Sum256.
  destruct (sha256.blocks _ _ _) as [[[[[[[a b] c] d] e] f] g] h].
  reflexivity.
Qed.

Lemma hmac_Sum_length (key msg : string) : len (hmac.Sum key msg) = 32.
Proof. unfold hmac.Sum. rewrite len_string_of_bytes. apply Sum256_length. Qed.

Lemma compare_from_true (s v : string) :
  len s = len v -> fst (compare_from s v 0 (len s)) = true -> s = v.
Proof.
  intros Hlen H.
  destruct (compare_from_spec s v (len s) 0 eq_refl)
    as [[_ Hall] | (k & _ & _ & _ & _ & Hr)].
  - apply byte_at_ext; [exact Hlen|]. intros j Hj. apply Hall; lia.
  - rewrite Hr in H. discriminate.
Qed.

Lemma validMessage_decodes (key sig msg : string) :
  validMessage key sig msg = true ->
  base64.DecodeString sig = Ok (hmac.Sum key msg).
Proof.
  unfold validMessage, validMessage_scan.
  destruct (base64.DecodeString sig) as [s|e]; [|discriminate].
  destruct (Nat.eqb (len (hmac.Sum key msg)) (len s)) eqn:E; [|discriminate].
  simpl. intros H. apply Nat.eqb_eq in E.
  f_equal. apply compare_from_true; [symmetry; exact E | exact H].
Qed.

Lemma validMessage_of_decoded (key sig msg : string) :
  base64.DecodeString sig = Ok (hmac.Sum key msg) ->
  validMessage key sig msg = true.
Proof.
  intros H. unfold validMessage, validMessage_scan.
  rewrite H, Nat.eqb_refl. simpl. rewrite compare_from_same. reflexivity.
Qed.

(** X1. validMessage accepts a signature exactly when it is the base64url
    text of the HMAC-SHA256 of the message under the key. *)
Theorem validMessage_true_iff (key sig msg : string) :
  validMessage key sig msg = true
  <-> base64.DecodeString sig = Ok (hmac.Sum key msg).
Proof.
  split; [apply validMessage_decodes | apply validMessage_of_decoded].
Qed.

Lemma validMessage_true_iff_witness :
  validMessage key0 "cfcZNlwLStWz5T2GypI77872cLBNQwamqYlRAkzlyiY=" "payload"
  = true.
Proof.
  apply (proj2 (validMessage_true_iff key0
                  "cfcZNlwLStWz5T2GypI77872cLBNQwamqYlRAkzlyiY=" "payload")).
  vm_compute. reflexivity.
Defined.

(** X2. A signature that does not decode to exactly 32 bytes is rejected
    before any byte is compared. *)
Theorem validMessage_rejects_other_lengths (key sig msg s : string) :
  base64.DecodeString sig = Ok s ->
  len s <> 32 ->
  validMessage_scan key sig msg = (false, 0)
  /\ validMessage key sig msg = false.
Proof.
  intros Hs Hlen. unfold validMessage, validMessage_scan.
  rewrite Hs, hmac_Sum_length.
  destruct (Nat.eqb 32 (len s)) eqn:E.
  - apply Nat.eqb_eq in E. congruence.
  - split; reflexivity.
Qed.

Lemma validMessage_rejects_other_lengths_witness :
  validMessage_scan key0 "c2hvcnQ=" "payload" = (false, 0)
  /\ validMessage key0 "c2hvcnQ=" "payload" = false.
Proof.
  apply (validMessage_rejects_other_lengths key0 "c2hvcnQ=" "payload" "short").
  - reflexivity.
  - discriminate.
Defined.

Lemma len_quantum (a b c : N) (r : string) :
  len (base64.quantum a b c ++ r) = 4 + len r.
Proof. reflexivity. Qed.

Lemma len_EncodeToString (s : string) :
  len (base64.EncodeToString s) = 4 * ((len s + 2) / 3).
Proof.
  induction s as [| a | a b | a b c r IH] using string_ind3;
    try reflexivity.
  rewrite EncodeToString3, len_quantum, IH.
  unfold len. cbn [String.length].
  replace (S (S (S (String.length r))) + 2) with (String.length r + 2 + 1 * 3)
    by lia.
  rewrite Nat.div_add by discriminate. lia.
Qed.

Lemma len_Write (s : string) : len (base64.Write s) = 4 * (len s / 3).
Proof.
  induction s as [| a | a b | a b c r IH] using string_ind3;
    try reflexivity.
  rewrite Write3, len_quantum, IH.
  unfold len. cbn [String.length].
  replace (S (S (S (String.length r)))) with (String.length r + 1 * 3) by lia.
  rewrite Nat.div_add by discriminate. lia.
Qed.

Lemma Write_no_comma (s : string) :
  strings.contains comma (base64.Write s) = false.
Proof.
  induction s as [| a | a b | a b c r IH] using string_ind3;
    try reflexivity.
  rewrite Write3, (proj2 (quantum_plain _ _ _ _)). exact IH.
Qed.

(** X3. A token made by encode is a signature of 44 characters, one comma,
    and a payload of four characters for every three bytes of the JSON
    text; neither part holds a comma, so splitting the token at its first
    comma gives the two parts back. *)
Theorem encode_token_shape (u : user) (key : string) :
  exists sig payload,
    encode u key = Ok (sig ++ String comma payload)
    /\ len sig = 44
    /\ strings.contains comma sig = false
    /\ strings.contains comma payload = false
    /\ len payload = 4 * (len (json.Encode u) / 3)
    /\ strings.SplitN2 (sig ++ String comma payload) comma = [sig; payload].
Proof.
  exists (base64.EncodeToString (hmac.Sum key (base64.Write (json.Encode u)))).
  exists (base64.Write (json.Encode u)).
  split; [reflexivity|].
  split; [rewrite len_EncodeToString, hmac_Sum_length; reflexivity|].
  split; [apply EncodeToString_plain|].
  split; [apply Write_no_comma|].
  split; [apply len_Write|].
  unfold strings.SplitN2. rewrite cut_app by apply EncodeToString_plain.
  reflexivity.
Qed.

(** X4. Decoding a token under the key that made it never fails the
    signature check, whatever the user and the key: the result is what the
    JSON decoder reads from the text of the user cut down to its whole
    three-byte groups, the same for every key. *)
Theorem decodeUser_encode_any_key (u : user) (key key' : string) :
  exists t t',
    encode u key = Ok t /\ encode u key' = Ok t'
    /\ decodeUser t key = json.Decode (whole_groups (json.Encode u), EOF)
    /\ decodeUser t' key' = decodeUser t key.
Proof.
  destruct (decodeUser_encode u key) as (t & Ht & Hd).
  destruct (decodeUser_encode u key') as (t' & Ht' & Hd').
  exists t, t'. repeat split; try assumption. congruence.
Qed.

(** X5. For a user whose fields are plain (printable ASCII without the
    double quote, the backslash, <, > and &), the token decodes to the user
    under the key that made it unless the JSON text and its newline have a
    length of 2 modulo 3; then decoding ends with io.ErrUnexpectedEOF. *)
Theorem roundtrip_plain_user (u : user) (key : string) :
  plain_user u = true ->
  exists t,
    encode u key = Ok t
    /\ (len (json.Encode u) mod 3 <> 2 -> decodeUser t key = Ok u)
    /\ (len (json.Encode u) mod 3 = 2 ->
        decodeUser t key = Err ErrUnexpectedEOF).
Proof.
  intros H. destruct (decodeUser_encode_plain u key H) as (t & Ht & Hd).
  exists t. split; [exact Ht|]. split; intros Hm; rewrite Hd.
  - apply Nat.eqb_neq in Hm. rewrite Hm. reflexivity.
  - rewrite Hm. reflexivity.
Qed.

Lemma roundtrip_plain_user_witness :
  exists t, encode carol key0 = Ok t /\ decodeUser t key0 = Ok carol.
Proof.
  destruct (roundtrip_plain_user carol key0 eq_refl) as (t & Ht & Hok & _).
  exists t. split; [exact Ht|]. apply Hok. vm_compute. discriminate.
Defined.

Lemma cut_some (sep : ascii) (s a b : string) :
  strings.cut sep s = Some (a, b) ->
  s = a ++ String sep b /\ strings.contains sep a = false.
Proof.
  revert a b. induction s as [|c r IH]; simpl; intros a b H; [discriminate|].
  unfold byte_eqb in *. destruct (Ascii.eqb c sep) eqn:E.
  - apply Ascii.eqb_eq in E. subst c. injection H as <- <-.
    split; reflexivity.
  - destruct (strings.cut sep r) as [[a' b']|]; [|discriminate].
    injection H as <- <-. destruct (IH a' b' eq_refl) as [-> Hc].
    split; [reflexivity|]. simpl. unfold byte_eqb. rewrite E. exact Hc.
Qed.

(** X6. decodeUser returns a user only for a token that splits at its
    first comma into a signature and a payload such that the signature is
    the base64url text of the HMAC-SHA256 of the payload under the key, and
    the user is what the JSON decoder reads from the decoded payload. *)
Theorem decodeUser_sound (c key : string) (u : user) :
  decodeUser c key = Ok u ->
  exists sig payload,
    c = sig ++ String comma payload
    /\ strings.contains comma sig = false
    /\ base64.DecodeString sig = Ok (hmac.Sum key payload)
    /\ json.Decode (base64.NewDecoder payload) = Ok u.
Proof.
  unfold decodeUser, strings.SplitN2. intros H.
  destruct (strings.cut comma c) as [[sig payload]|] eqn:E; [|discriminate].
  destruct (cut_some _ _ _ _ E) as [-> Hc].
  destruct (validMessage key sig payload) eqn:V; [|discriminate].
  exists sig, payload. repeat split; try assumption.
  apply validMessage_decodes. exact V.
Qed.

Lemma decodeUser_sound_witness :
  exists sig payload,
    carol_token = sig ++ String comma payload
    /\ strings.contains comma sig = false
    /\ base64.DecodeString sig = Ok (hmac.Sum key0 payload)
    /\ json.Decode (base64.NewDecoder payload) = Ok carol.
Proof.
  apply (decodeUser_sound carol_token key0 carol). vm_compute. reflexivity.
Defined.

(** ** Identity resolution *)

(** X7. Without a usable session, identity resolution yields no user and
    leaves the cache as it was: when the request has no cookie "u", when
    the cookie is empty, when its value cannot be unescaped, and when the
    unescaped value is neither in the cache nor decodes under the key. *)
Theorem userFrom_no_session (r : Request) (c0 : lilcache.Cache) (key : string) :
  (exists e, Cookie r userCookieKey = Err e)
  \/ Cookie r userCookieKey = Ok ""
  \/ (exists c e, Cookie r userCookieKey = Ok c
                  /\ url.QueryUnescape c = Err e)
  \/ (exists c v e, Cookie r userCookieKey = Ok c
                    /\ url.QueryUnescape c = Ok v
                    /\ fst (lilcache.Get v c0) = None
                    /\ decodeUser v key = Err e) ->
  userFrom r c0 key = (None, c0).
Proof.
  unfold userFrom.
  intros [[e ->] | [-> | [(c & e & -> & Hu) | (c & v & e & -> & Hu & Hg & Hd)]]].
  - reflexivity.
  - reflexivity.
  - destruct (String.eqb c ""); [reflexivity|]. rewrite Hu. reflexivity.
  - destruct (String.eqb c ""); [reflexivity|]. rewrite Hu.
    destruct (Get_miss v c0 Hg) as [-> _]. rewrite Hd. reflexivity.
Qed.

Lemma userFrom_no_session_witness :
  userFrom (get "/" [] []) (lilcache.New 50) key0 = (None, lilcache.New 50)
  /\ userFrom (get "/" [("u", "100%")] []) (lilcache.New 50) key0
     = (None, lilcache.New 50)
  /\ userFrom (get "/" [("u", "forged%2Ctoken")] []) (lilcache.New 50) key0
     = (None, lilcache.New 50).
Proof.
  split; [|split].
  - apply userFrom_no_session. left. exists ErrNoCookie. reflexivity.
  - apply userFrom_no_session. right. right. left.
    exists "100%", EscapeError. split; reflexivity.
  - apply userFrom_no_session. right. right. right.
    exists "forged%2Ctoken", "forged,token", (invalidCookie "forged,token").
    repeat split; vm_compute; reflexivity.
Defined.

(** X8. Identity resolution returns a user only from a non-empty cookie
    "u" whose unescaped value is a key of the cache holding that user, or
    is not in the cache and decodes to that user under the key. *)
Theorem userFrom_sound (r : Request) (c0 c1 : lilcache.Cache) (key : string)
  (u : user) :
  userFrom r c0 key = (Some u, c1) ->
  exists c v,
    Cookie r userCookieKey = Ok c
    /\ c <> ""
    /\ url.QueryUnescape c = Ok v
    /\ (lilcache.lookup v (lilcache.entries c0) = Some u
        \/ (lilcache.lookup v (lilcache.entries c0) = None
            /\ decodeUser v key = Ok u
            /\ c1 = lilcache.Put c u c0)).
Proof.
  unfold userFrom. intros H.
  destruct (Cookie r userCookieKey) as [c|e]; [|discriminate].
  destruct (String.eqb c "") eqn:Ec; [discriminate|].
  apply String.eqb_neq in Ec.
  destruct (url.QueryUnescape c) as [v|e] eqn:Ev; [|discriminate].
  exists c, v. split; [reflexivity|]. split; [exact Ec|]. split; [exact Ev|].
  unfold lilcache.Get in H.
  destruct (lilcache.lookup v (lilcache.entries c0)) as [u'|].
  - left. congruence.
  - right. split; [reflexivity|].
    destruct (decodeUser v key) as [u'|e]; [|discriminate].
    injection H as <- <-. split; reflexivity.
Qed.

Lemma userFrom_sound_witness :
  exists c v,
    Cookie (get "/dashboard" [("u", carol_cookie)] []) userCookieKey = Ok c
    /\ c <> ""
    /\ url.QueryUnescape c = Ok v
    /\ (lilcache.lookup v (lilcache.entries (lilcache.New 50)) = Some carol
        \/ (lilcache.lookup v (lilcache.entries (lilcache.New 50)) = None
            /\ decodeUser v key0 = Ok carol
            /\ lilcache.Put carol_cookie carol (lilcache.New 50)
               = lilcache.Put c carol (lilcache.New 50))).
Proof.
  apply (userFrom_sound (get "/dashboard" [("u", carol_cookie)] [])
           (lilcache.New 50) (lilcache.Put carol_cookie carol (lilcache.New 50))
           key0 carol).
  vm_compute. reflexivity.
Defined.

(** X9. A cache hit is returned as it is: when the unescaped cookie value
    is a key of the cache, identity resolution returns the cached user
    under every key, without verifying a signature; the value need not be
    a token at all. *)
Theorem userFrom_cache_hit (r : Request) (c0 : lilcache.Cache)
  (key c v : string) (u : user) :
  Cookie r userCookieKey = Ok c -> c <> "" ->
  url.QueryUnescape c = Ok v ->
  lilcache.lookup v (lilcache.entries c0) = Some u ->
  fst (userFrom r c0 key) = Some u.
Proof.
  intros Hc Hne Hv Hl. unfold userFrom, lilcache.Get.
  apply String.eqb_neq in Hne. rewrite Hc, Hne, Hv, Hl. reflexivity.
Qed.

Lemma userFrom_cache_hit_witness :
  fst (userFrom (get "/" [("u", "not+a+token")] [])
         (lilcache.Put "not a token" carol (lilcache.New 50)) "another key")
  = Some carol.
Proof.
  apply (userFrom_cache_hit _ _ "another key" "not+a+token" "not a token" carol).
  - reflexivity.
  - discriminate.
  - reflexivity.
  - reflexivity.
Defined.

(** ** Forwarding *)

Lemma Values_add_all (h : http.Header) (key k : string) (vals : list string) :
  http.Values (fold_left (fun dst val => http.Add dst key val) vals h) k
  = (http.Values h k ++ (if String.eqb key k then vals else []))%list.
Proof.
  revert h. induction vals as [|v vals IH]; intros h; simpl.
  - destruct (String.eqb key k); now rewrite app_nil_r.
  - rewrite IH. destruct (String.eqb key k) eqn:E.
    + apply String.eqb_eq in E. subst k.
      rewrite Values_Add_same, <- app_assoc. reflexivity.
    + apply String.eqb_neq in E. rewrite Values_Add_other by exact E.
      reflexivity.
Qed.

Lemma Values_copyHeaders (dst src : http.Header) (k : string) :
  http.Values (copyHeaders dst src) k
  = (http.Values dst k ++ values_in src k)%list.
Proof.
  unfold copyHeaders. revert dst.
  induction src as [|[key vals] src IH]; intros dst; simpl.
  - now rewrite app_nil_r.
  - rewrite IH, Values_add_all.
    destruct (String.eqb key k); [now rewrite <- app_assoc|].
    now rewrite app_nil_r.
Qed.

(** X10. copyHeaders adds to the destination every value of the source, in
    order, after the values the destination already holds under the same
    key: nothing the destination held is replaced or dropped, and copying
    into an empty header gives the values of the source. *)
Theorem copyHeaders_appends_values (dst src : http.Header) (k : string) :
  http.Values (copyHeaders dst src) k
  = (http.Values dst k ++ values_in src k)%list
  /\ http.Values (copyHeaders [] src) k = values_in src k
  /\ (forall v, In v (http.Values dst k) ->
                In v (http.Values (copyHeaders dst src) k)).
Proof.
  split; [apply Values_copyHeaders|].
  split; [apply (Values_copyHeaders [] src k)|].
  intros v Hv. rewrite Values_copyHeaders. apply in_or_app. left. exact Hv.
Qed.

(** X11. The request built for the backend has the method and the body of
    the inbound request and its path and query, with the scheme http and
    the host of the backend.  Under every key it carries all the values of
    the inbound request; the escaped email is added after them under
    X-Underpants-Email and under X-Underpants-Name, so values a client
    sends under these two keys reach the backend ahead of the asserted
    one. *)
Theorem backendRequest_contents (d : disp) (r : Request) (u : user) (k : string) :
  let br := backendRequest d r u in
  outbound.Method br = Method r
  /\ outbound.Body br = Body r
  /\ outbound.URL br
     = {| url.Scheme := "http"; url.Host := to d;
          url.Path := url.Path (URL r); url.RawQuery := url.RawQuery (URL r) |}
  /\ http.Values (outbound.Header br) k
     = (values_in (Header r) k
        ++ (if String.eqb k "X-Underpants-Email" || String.eqb k "X-Underpants-Name"
            then [url.QueryEscape (Email u)] else []))%list.
Proof.
  cbv zeta. repeat split. unfold backendRequest. cbn [outbound.Header].
  destruct (String.eqb k "X-Underpants-Name") eqn:En.
  - apply String.eqb_eq in En. subst k. rewrite Values_Add_same.
    rewrite Values_Add_other by discriminate.
    rewrite Values_copyHeaders. reflexivity.
  - apply String.eqb_neq in En.
    rewrite Values_Add_other by (intros E; apply En; symmetry; exact E).
    destruct (String.eqb k "X-Underpants-Email") eqn:Ee.
    + apply String.eqb_eq in Ee. subst k. rewrite Values_Add_same.
      rewrite Values_copyHeaders. reflexivity.
    + apply String.eqb_neq in Ee.
      rewrite Values_Add_other by (intros E; apply Ee; symmetry; exact E).
      rewrite Values_copyHeaders. simpl. now rewrite app_nil_r.
Qed.



(** X13. The forwarder contacts the backend only for an authenticated
    request, and then with the request built for the resolved user. *)
Theorem serveHttpProxy_sends_only_authenticated (W : World) (d : disp)
  (c0 : lilcache.Cache) (r : Request) (br : outbound.Request) :
  sent (serveHttpProxy W d c0 http.fresh r) = Some br ->
  exists u, fst (userFrom r c0 (key d)) = Some u /\ br = backendRequest d r u.
Proof.
  unfold serveHttpProxy.
  destruct (userFrom r c0 (key d)) as [[u|] c1]; simpl; [|discriminate].
  destruct (http_NewRequest W _ _); simpl; [discriminate|].
  destruct (client_Do W (backendRequest d r u)); simpl; intros H;
    injection H as <-; exists u; split; reflexivity.
Qed.

Lemma serveHttpProxy_sends_only_authenticated_witness :
  exists u,
    fst (userFrom (get "/dashboard" [("u", carol_cookie)] [])
           (lilcache.New 50) (key wiki)) = Some u
    /\ backendRequest wiki (get "/dashboard" [("u", carol_cookie)] []) carol
       = backendRequest wiki (get "/dashboard" [("u", carol_cookie)] []) u.
Proof.
  apply (serveHttpProxy_sends_only_authenticated (world carol) wiki
           (lilcache.New 50) (get "/dashboard" [("u", carol_cookie)] [])).
  vm_compute. reflexivity.
Defined.

(** X14. When the backend answers an authenticated request, the response
    to the caller has the status code of the backend's response and its
    headers, and then its body is copied.  When every write to the caller
    succeeds, the bytes read of the body are written, and the handler
    returns when the body was read to its end and panics with the error of
    the read otherwise.  When a write to the caller fails, the bytes written
    are those the caller accepted and the handler panics with the error of
    that write, whatever the reading of the body gave. *)
Theorem serveHttpProxy_relays_response (W : World) (d : disp)
  (c0 c1 : lilcache.Cache) (r : Request) (u : user) (bp : backend.Response) :
  userFrom r c0 (key d) = (Some u, c1) ->
  http_NewRequest W (Method r) (url.String (urlFor (to d) r)) = None ->
  client_Do W (backendRequest d r u) = Ok bp ->
  let s := serveHttpProxy W d c0 http.fresh r in
  http.status (response s) = Some (backend.StatusCode bp)
  /\ (forall k, http.Values (http.header (response s)) k
                = values_in (backend.Header bp) k)
  /\ cache s = c1
  /\ sent s = Some (backendRequest d r u)
  /\ (snd (caller_Write W (fst (backend.Body bp))) = None ->
      http.written_of (http.calls (response s)) = fst (backend.Body bp)
      /\ ended s = match snd (backend.Body bp) with
                   | Some err => Panicked err
                   | None => Returned
                   end)
  /\ (forall werr,
      snd (caller_Write W (fst (backend.Body bp))) = Some werr ->
      http.written_of (http.calls (response s))
      = fst (caller_Write W (fst (backend.Body bp)))
      /\ ended s = Panicked werr).
Proof.
  intros Hu Hn Hd. cbv zeta. unfold serveHttpProxy. rewrite Hu, Hn, Hd.
  unfold io_Copy. destruct (backend.Body bp) as [data rerr]. cbn [fst snd].
  destruct (caller_Write W data) as [written [e|]]; cbn.
  - split; [reflexivity|]. split.
    { intros k. apply (Values_copyHeaders [] (backend.Header bp) k). }
    split; [reflexivity|]. split; [reflexivity|]. split.
    + discriminate.
    + intros werr H. injection H as <-. split; [apply app_empty|reflexivity].
  - split; [reflexivity|]. split.
    { intros k. apply (Values_copyHeaders [] (backend.Header bp) k). }
    split; [reflexivity|]. split; [reflexivity|]. split.
    + intros _. split; [apply app_empty|reflexivity].
    + discriminate.
Qed.

Lemma serveHttpProxy_relays_response_witness :
  (let s := serveHttpProxy (answering carol) wiki (lilcache.New 50) http.fresh
              (get "/dashboard" [("u", carol_cookie)] []) in
   http.status (response s) = Some 200
   /\ http.written_of (http.calls (response s)) = "<h1>Home</h1>"
   /\ ended s = Returned)
  /\ (let s := serveHttpProxy (hanging_up carol) wiki (lilcache.New 50)
                 http.fresh (get "/dashboard" [("u", carol_cookie)] []) in
      http.status (response s) = Some 200
      /\ http.written_of (http.calls (response s)) = "<h1>"
      /\ ended s = Panicked brokenPipe).
Proof.
  cbv zeta. split.
  - destruct (serveHttpProxy_relays_response (answering carol) wiki
                (lilcache.New 50)
                (lilcache.Put carol_cookie carol (lilcache.New 50))
                (get "/dashboard" [("u", carol_cookie)] []) carol page)
      as (H1 & _ & _ & _ & H5 & _).
    + vm_compute. reflexivity.
    + reflexivity.
    + reflexivity.
    + split; [exact H1|]. exact (H5 eq_refl).
  - destruct (serveHttpProxy_relays_response (hanging_up carol) wiki
                (lilcache.New 50)
                (lilcache.Put carol_cookie carol (lilcache.New 50))
                (get "/dashboard" [("u", carol_cookie)] []) carol page)
      as (H1 & _ & _ & _ & _ & H6).
    + vm_compute. reflexivity.
    + reflexivity.
    + reflexivity.
    + split; [exact H1|]. exact (H6 brokenPipe eq_refl).
Defined.

(** ** The bridge-completion endpoint, in general *)

(** X15. The bridge-completion endpoint always returns, never contacts the
    backend, and makes one of three responses: 400 alone, 403 alone, or the
    session cookie for the escaped [c] followed by the 302 to [p].  A
    cookie is set only together with the redirect. *)
Theorem serveHttpAuth_outcomes (d : disp) (c0 : lilcache.Cache) (r : Request) :
  let s := serveHttpAuth d c0 http.fresh r in
  ended s = Returned
  /\ sent s = None
  /\ http.header (response s) = []
  /\ (http.calls (response s) = [badRequest]
      \/ http.calls (response s) = [forbidden]
      \/ http.calls (response s)
         = [http.SetCookie (sessionCookie (url.QueryEscape (FormValue r "c")));
            http.Redirect (FormValue r "p") 302]).
Proof.
  cbv zeta. unfold serveHttpAuth.
  destruct (String.eqb (FormValue r "c") ""
            || negb (strings.HasPrefix (FormValue r "p") "/")).
  - repeat split. left. reflexivity.
  - destruct (lilcache.Get (FormValue r "c") c0) as [[u|] c1].
    + repeat split. right. right. reflexivity.
    + destruct (decodeUser (FormValue r "c") (key d)).
      * repeat split. right. right. reflexivity.
      * repeat split. right. left. reflexivity.
Qed.

Lemma lookup_Get (k k' : string) (c : lilcache.Cache) :
  lilcache.lookup k' (lilcache.entries (snd (lilcache.Get k c)))
  = lilcache.lookup k' (lilcache.entries c).
Proof.
  unfold lilcache.Get.
  destruct (lilcache.lookup k (lilcache.entries c)) as [v|] eqn:E;
    [|reflexivity].
  cbn [snd lilcache.entries lilcache.lookup].
  destruct (String.eqb k k') eqn:Ek.
  - apply String.eqb_eq in Ek. subst k'. symmetry. exact E.
  - apply String.eqb_neq in Ek. apply lookup_remove_other. exact Ek.
Qed.

(** X16. The bridge-completion endpoint verifies but never stores: after
    it, the cache has the capacity it had and holds under every key what it
    held before, also when a token that was not cached has just been
    decoded and accepted. *)
Theorem serveHttpAuth_keeps_cache (d : disp) (c0 : lilcache.Cache)
  (r : Request) (k : string) :
  let s := serveHttpAuth d c0 http.fresh r in
  lilcache.capacity (cache s) = lilcache.capacity c0
  /\ lilcache.lookup k (lilcache.entries (cache s))
     = lilcache.lookup k (lilcache.entries c0).
Proof.
  cbv zeta. unfold serveHttpAuth.
  destruct (String.eqb (FormValue r "c") ""
            || negb (strings.HasPrefix (FormValue r "p") "/"));
    [split; reflexivity|].
  pose proof (lookup_Get (FormValue r "c") k c0) as Hl.
  assert (Hc : lilcache.capacity (snd (lilcache.Get (FormValue r "c") c0))
               = lilcache.capacity c0).
  { unfold lilcache.Get.
    destruct (lilcache.lookup (FormValue r "c") (lilcache.entries c0));
      reflexivity. }
  destruct (lilcache.Get (FormValue r "c") c0) as [[u|] c1];
    cbn [snd] in Hl, Hc.
  - split; assumption.
  - destruct (decodeUser (FormValue r "c") (key d)); split; assumption.
Qed.

(** ** The callback, in general *)

(** X17. The callback of the identity provider ends in one of three ways:
    it answers 403 alone, it panics having written nothing, or it issues a
    token.  In the first two the cache is left as it was and no cookie is
    set.  A token is issued only for the profile the provider returned,
    only when the email of that profile ends with the configured domain,
    and then the token is stored in the cache under itself, set as the
    session cookie in escaped form, and carried in the 302 to the
    bridge-completion endpoint of the host named by the state. *)
Theorem callback_outcomes (W : World) (oauth_domain key : string)
  (c0 : lilcache.Cache) (r : Request) :
  let s := callback W oauth_domain key c0 http.fresh r in
  (ended s = Returned /\ cache s = c0 /\ http.cookies (response s) = []
   /\ http.header (response s) = []
   /\ http.status (response s) = Some 403
   /\ http.has_location (response s) = false)
  \/ (exists e, ended s = Panicked e /\ cache s = c0
                /\ response s = http.fresh)
  \/ (exists res u v back,
        userinfo_Get W "https://www.googleapis.com/oauth2/v1/userinfo?alt=json"
          = Ok res
        /\ json.Decode res = Ok u
        /\ strings.HasSuffix (Email u) oauth_domain = true
        /\ encode u key = Ok v
        /\ url_Parse W (FormValue r "state") = Ok back
        /\ ended s = Returned
        /\ cache s = lilcache.Put v u c0
        /\ http.calls (response s)
           = [http.SetCookie (sessionCookie (url.QueryEscape v));
              http.Redirect
                ("http://" ++ url.Host back ++ authPathPrefix ++ "?c="
                   ++ url.QueryEscape v ++ "&p="
                   ++ url.QueryEscape
                        (if negb (String.eqb (url.RawQuery back) "")
                         then url.Path back ++ "?" ++ url.RawQuery back
                         else url.Path back)) 302]).
Proof.
  cbv zeta. unfold callback.
  destruct (String.eqb (FormValue r "code") ""
            || String.eqb (FormValue r "state") "");
    [left; repeat split|].
  destruct (url_Parse W (FormValue r "state")) as [back|e];
    [|left; repeat split].
  destruct (oauth_Exchange W (FormValue r "code")); [left; repeat split|].
  destruct (userinfo_Get W _) as [res|e] eqn:Eres;
    [|right; left; exists e; repeat split].
  destruct (json.Decode res) as [u|e] eqn:Eu;
    [|right; left; exists e; repeat split].
  destruct (strings.HasSuffix (Email u) oauth_domain) eqn:Es;
    [|left; repeat split].
  right. right. exists res, u. eexists. exists back.
  cbn. repeat split; eassumption.
Qed.

(** X18. The callback answers 403, sets no cookie and leaves the cache as
    it was when the parameter code or the parameter state is missing, when
    the state does not parse as a URL, when the exchange of the code fails,
    and when the email of the profile does not end with the configured
    domain. *)
Theorem callback_rejects (W : World) (oauth_domain key : string)
  (c0 : lilcache.Cache) (r : Request) :
  FormValue r "code" = "" \/ FormValue r "state" = ""
  \/ (exists e, url_Parse W (FormValue r "state") = Err e)
  \/ (exists e, oauth_Exchange W (FormValue r "code") = Some e)
  \/ (exists res u,
        userinfo_Get W "https://www.googleapis.com/oauth2/v1/userinfo?alt=json"
          = Ok res
        /\ json.Decode res = Ok u
        /\ strings.HasSuffix (Email u) oauth_domain = false) ->
  let s := callback W oauth_domain key c0 http.fresh r in
  http.calls (response s) = [forbidden]
  /\ cache s = c0
  /\ ended s = Returned.
Proof.
  intros H. cbv zeta. unfold callback.
  destruct (String.eqb (FormValue r "code") ""
            || String.eqb (FormValue r "state") "") eqn:E0;
    [repeat split|].
  apply orb_false_elim in E0. destruct E0 as [Ec Es].
  apply String.eqb_neq in Ec, Es.
  destruct H as [H | [H | H]]; [congruence | congruence |].
  destruct (url_Parse W (FormValue r "state")) as [back|e]; [|repeat split].
  destruct H as [[e H] | H]; [discriminate|].
  destruct (oauth_Exchange W (FormValue r "code")); [repeat split|].
  destruct H as [[e H] | (res & u & -> & -> & Hs)]; [discriminate|].
  rewrite Hs. repeat split.
Qed.

Lemma callback_rejects_witness :
  let s := callback (world {| Email := "bob@other.com"; Name := "Bob";
                              Picture := "" |})
             "org.com" key0 (lilcache.New 50) http.fresh
             (get "/__auth__/" []
                [("code", "4/P7q7W91"); ("state", "http://wiki.org.com/")]) in
  http.calls (response s) = [forbidden]
  /\ cache s = lilcache.New 50
  /\ ended s = Returned.
Proof.
  apply callback_rejects. right. right. right. right.
  eexists. exists {| Email := "bob@other.com"; Name := "Bob"; Picture := "" |}.
  split; [reflexivity|]. split; vm_compute; reflexivity.
Defined.

(** ** Sessions in the cache *)

Lemma QueryEscape_nonempty (v : string) : v <> "" -> url.QueryEscape v <> "".
Proof.
  destruct v as [|a v]; [congruence|]. intros _ E.
  destruct a as [[] [] [] [] [] [] [] []]; discriminate E.
Qed.

Lemma lookup_Put (k : string) (u : user) (c : lilcache.Cache) :
  0 < lilcache.capacity c ->
  lilcache.lookup k (lilcache.entries (lilcache.Put k u c)) = Some u.
Proof.
  intros H. unfold lilcache.Put. cbn [lilcache.entries].
  destruct (lilcache.capacity c) as [|n]; [lia|].
  cbn [firstn lilcache.lookup]. rewrite String.eqb_refl. reflexivity.
Qed.

(** X19. A token the callback has stored in a cache of positive capacity
    is honoured from the cache, without being decoded, by every dispatcher
    of the process: the bridge-completion endpoint given the token sets
    the session cookie and redirects, and identity resolution of a request
    that carries the escaped token in its cookie returns the stored user.
    This holds whatever the key, and also for a token that does not
    decode. *)
Theorem cached_session_is_honoured (c0 : lilcache.Cache) (v : string) (u : user) :
  0 < lilcache.capacity c0 -> v <> "" ->
  let c1 := lilcache.Put v u c0 in
  (forall d r,
     FormValue r "c" = v -> strings.HasPrefix (FormValue r "p") "/" = true ->
     http.calls (response (serveHttpAuth d c1 http.fresh r))
     = [http.SetCookie (sessionCookie (url.QueryEscape v));
        http.Redirect (FormValue r "p") 302])
  /\ (forall r key,
        Cookie r userCookieKey = Ok (url.QueryEscape v) ->
        fst (userFrom r c1 key) = Some u).
Proof.
  intros Hcap Hv. cbv zeta.
  pose proof (lookup_Put v u c0 Hcap) as Hl. split.
  - intros d r Hc Hp. unfold serveHttpAuth. rewrite Hc, Hp.
    apply String.eqb_neq in Hv. rewrite Hv. cbn [orb negb].
    unfold lilcache.Get. rewrite Hl. reflexivity.
  - intros r key Hc. unfold userFrom. rewrite Hc.
    pose proof (QueryEscape_nonempty v Hv) as Hne.
    apply String.eqb_neq in Hne. rewrite Hne, QueryUnescape_QueryEscape.
    unfold lilcache.Get. rewrite Hl. reflexivity.
Qed.

Lemma cached_session_is_honoured_witness :
  decodeUser alice_token key0 = Err ErrUnexpectedEOF
  /\ fst (userFrom (get "/dashboard" [("u", url.QueryEscape alice_token)] [])
            (lilcache.Put alice_token alice (lilcache.New 50)) key0)
     = Some alice.
Proof.
  split; [vm_compute; reflexivity|].
  apply (proj2 (cached_session_is_honoured (lilcache.New 50) alice_token alice
                  ltac:(cbn; lia) ltac:(discriminate))).
  reflexivity.
Defined.

(** X20. The value of the session cookie, as the bridge-completion
    endpoint and the callback set it, is the escaped token: it holds no
    comma, it is empty only for the empty token, and unescaping it, as
    identity resolution does, gives the token back. *)
Theorem session_cookie_roundtrip (v : string) :
  let ck := sessionCookie (url.QueryEscape v) in
  url.QueryUnescape (http.Value ck) = Ok v
  /\ strings.contains comma (http.Value ck) = false
  /\ (http.Value ck = "" <-> v = "").
Proof.
  cbv zeta. cbn [sessionCookie http.Value].
  split; [apply QueryUnescape_QueryEscape|].
  split; [apply QueryEscape_no_comma|].
  split.
  - intros E. destruct v as [|a v]; [reflexivity|].
    exfalso. revert E. apply QueryEscape_nonempty. discriminate.
  - intros ->. reflexivity.
Qed.

(** ** Dispatch *)

(** X21. A dispatcher never forwards a request whose path starts with
    /__auth__/: it treats it as a bridge completion, whatever the method
    and the cookie, and answers 400, 403 or the cookie and redirect; every
    other request goes to the forwarder. *)
Theorem ServeHTTP_dispatch (W : World) (d : disp) (c0 : lilcache.Cache)
  (r : Request) :
  let s := ServeHTTP W d c0 http.fresh r in
  (strings.HasPrefix (url.Path (URL r)) authPathPrefix = true ->
   s = serveHttpAuth d c0 http.fresh r
   /\ sent s = None /\ ended s = Returned)
  /\ (strings.HasPrefix (url.Path (URL r)) authPathPrefix = false ->
      s = serveHttpProxy W d c0 http.fresh r).
Proof.
  cbv zeta. unfold ServeHTTP. split; intros ->; [|reflexivity].
  split; [reflexivity|].
  unfold serveHttpAuth.
  destruct (String.eqb (FormValue r "c") ""
            || negb (strings.HasPrefix (FormValue r "p") "/"));
    [split; reflexivity|].
  destruct (lilcache.Get (FormValue r "c") c0) as [[u|] c1];
    [split; reflexivity|].
  destruct (decodeUser (FormValue r "c") (key d)); split; reflexivity.
Qed.

Lemma ServeHTTP_dispatch_witness :
  http.calls (response (ServeHTTP (answering carol) wiki (lilcache.New 50)
                          http.fresh logout_on_route)) = [badRequest]
  /\ sent (ServeHTTP (answering carol) wiki (lilcache.New 50) http.fresh
             (get "/dashboard" [("u", carol_cookie)] []))
     = Some (backendRequest wiki (get "/dashboard" [("u", carol_cookie)] [])
               carol).
Proof.
  split.
  - rewrite (proj1 (proj1 (ServeHTTP_dispatch (answering carol) wiki
                             (lilcache.New 50) logout_on_route) eq_refl)).
    reflexivity.
  - rewrite (proj2 (ServeHTTP_dispatch (answering carol) wiki
                      (lilcache.New 50)
                      (get "/dashboard" [("u", carol_cookie)] [])) eq_refl).
    vm_compute. reflexivity.
Defined.

(** ** Host names *)

(** X22. hostOf returns the bare name exactly for the ports 80 and 443;
    for every other port the result is the name, a colon and the port in
    decimal, which is longer than the name. *)
Theorem hostOf_bare_iff_default_port (name : string) (port : Z) :
  (hostOf name port = name <-> port = 80%Z \/ port = 443%Z)
  /\ (port <> 80%Z -> port <> 443%Z ->
      hostOf name port = name ++ ":" ++ itoa port).
Proof.
  unfold hostOf. split; [split|].
  - destruct (Z.eqb_spec port 80) as [E|E]; [left; exact E|].
    destruct (Z.eqb_spec port 443) as [E'|E']; [right; exact E'|].
    cbn [orb]. intros H. apply (f_equal len) in H.
    rewrite len_app in H. cbn [len append String.length] in H.
    unfold len in H. lia.
  - intros [-> | ->]; reflexivity.
  - intros H1 H2.
    apply Z.eqb_neq in H1, H2. rewrite H1, H2. reflexivity.
Qed.

Lemma hostOf_bare_iff_default_port_witness :
  hostOf "wiki.org.com" 443 = "wiki.org.com"
  /\ hostOf "wiki.org.com" 8080 = "wiki.org.com:8080".
Proof.
  split.
  - apply (proj2 (proj1 (hostOf_bare_iff_default_port "wiki.org.com" 443))).
    right. reflexivity.
  - apply (proj2 (hostOf_bare_iff_default_port "wiki.org.com" 8080));
      discriminate.
Defined.

(** ** The key *)

Lemma len_substring (n : nat) (s : string) :
  n <= len s -> len (substring 0 n s) = n.
Proof.
  revert s. induction n as [|n IH]; intros [|a s] H; simpl in *;
    try reflexivity; try lia.
  unfold len in *. simpl in *. rewrite IH; [reflexivity | lia].
Qed.

Lemma bytes_of_string_length (s : string) :
  length (bytes_of_string s) = len s.
Proof. induction s as [|a s IH]; simpl; [reflexivity | now rewrite IH]. Qed.

(** X23. newKey succeeds exactly when the random source delivers at least
    64 bytes, and the key is then exactly 64 bytes long, the first 64 the
    source delivered; a shorter source makes it fail with the error that
    ended the source.  A key of that length is the block HMAC-SHA256 works
    with as it is: it is neither hashed nor padded. *)
Theorem newKey_length (data : string) (e : error) :
  (64 <= len data ->
   exists k, newKey (data, e) = Ok k
             /\ len k = 64
             /\ k = substring 0 64 data
             /\ hmac.block_key (bytes_of_string k) = bytes_of_string k)
  /\ (len data < 64 -> newKey (data, e) = Err e).
Proof.
  unfold newKey, CopyN. split; intros H.
  - apply Nat.leb_le in H. rewrite H. apply Nat.leb_le in H.
    exists (substring 0 64 data).
    pose proof (len_substring 64 data H) as Hl.
    split; [reflexivity|]. split; [exact Hl|]. split; [reflexivity|].
    unfold hmac.block_key, hmac.blocksize.
    rewrite bytes_of_string_length, Hl. cbn [Nat.ltb Nat.leb].
    rewrite bytes_of_string_length, Hl. cbn [Nat.sub repeat].
    apply app_nil_r.
  - apply Nat.leb_gt in H. rewrite H. reflexivity.
Qed.

Lemma newKey_length_witness :
  newKey (key0 ++ "and more bytes of the source", EOF) = Ok key0
  /\ newKey ("too short", EOF) = Err EOF.
Proof.
  split.
  - destruct (proj1 (newKey_length (key0 ++ "and more bytes of the source") EOF)
                ltac:(cbn; lia)) as (k & Hk & _ & -> & _).
    exact Hk.
  - apply (proj2 (newKey_length "too short" EOF)). cbn. lia.
Defined.
